(** * The HTTP/TLS connection manager of [modules/access/http/connmgr.c]

    A shallow embedding of the connection manager: the dialer
    ([vlc_https_connect], [vlc_http_proxy_find], the two [_i11e] dialers),
    the single-slot connection cache ([vlc_http_mgr_find],
    [vlc_http_mgr_release]), the dispatcher ([vlc_http_mgr_reuse],
    [vlc_https_request], [vlc_http_request], [vlc_http_mgr_request]) and the
    life cycle ([vlc_http_mgr_create], [vlc_http_mgr_destroy]).

    The functions the manager calls but does not define (sockets, TLS, the
    HTTP/1.1 and HTTP/2 connection objects, the proxy lookup) are taken as a
    record of collaborators acting on an abstract world, so that every
    theorem holds whatever these functions answer. *)

From Stdlib Require Import String Ascii NArith ZArith DecimalString List Bool Lia.
Import ListNotations.
Open Scope string_scope.
Open Scope list_scope.

(** ** Data, as the C file has it *)

(** Non-null pointers to the opaque objects of the other modules.  A C
    pointer that may be [NULL] is an [option] of these. *)
Definition vlc_object_t := nat.
Definition vlc_http_cookie_jar_t := nat.
Definition vlc_tls_t := nat.
Definition vlc_http_conn := nat.
Definition vlc_http_stream := nat.
Definition vlc_http_msg := nat.

(** [vlc_tls_creds_t]: the manager reads one field of it, [obj.parent]. *)
Record vlc_tls_creds_t := mk_creds {
  creds_addr : nat;
  creds_parent : vlc_object_t
}.

(** [vlc_url_t], the two fields [vlc_http_connect_i11e] reads. *)
Record vlc_url_t := mk_url {
  psz_host : option string;
  i_port : N
}.

(** [struct vlc_http_mgr]. *)
Record vlc_http_mgr := mk_mgr {
  obj : vlc_object_t;
  creds : option vlc_tls_creds_t;
  jar : option vlc_http_cookie_jar_t;
  conn : option vlc_http_conn;
  use_h2c : bool
}.

Definition with_creds (m : vlc_http_mgr) (c : option vlc_tls_creds_t) :=
  mk_mgr (obj m) c (jar m) (conn m) (use_h2c m).

Definition with_conn (m : vlc_http_mgr) (c : option vlc_http_conn) :=
  mk_mgr (obj m) (creds m) (jar m) c (use_h2c m).

(** ** The trace

    Every call to a collaborator is logged with its arguments and its
    answer, and every store to [mgr->conn] with the value it overwrites.
    The trace is chronological: the oldest event comes first. *)
Inductive event :=
| EvGetProxyUrl (url : string) (r : option string)
| EvSocketOpenTLS (cr : vlc_tls_creds_t) (name : string) (port : N)
    (service : string) (alpn : list string)
    (r : option (vlc_tls_t * option string))
| EvConnectProxy (o : vlc_object_t) (cr : vlc_tls_creds_t) (host : string)
    (port : N) (two : bool) (proxy : string) (r : option vlc_tls_t * bool)
| EvSocketOpenTCP (o : vlc_object_t) (host : string) (port : N)
    (r : option vlc_tls_t)
| EvClientCreate (o : vlc_object_t) (r : option vlc_tls_creds_t)
| EvStreamOpen (c : vlc_http_conn) (req : vlc_http_msg)
    (r : option vlc_http_stream)
| EvGetInitial (s : vlc_http_stream) (r : option vlc_http_msg)
| EvH2Create (o : vlc_object_t) (tls : vlc_tls_t) (r : option vlc_http_conn)
| EvH1Create (o : vlc_object_t) (tls : vlc_tls_t) (proxied : bool)
    (r : option vlc_http_conn)
| EvTlsClose (tls : vlc_tls_t)
| EvConnRelease (c : vlc_http_conn)
| EvTlsDelete (cr : vlc_tls_creds_t)
| EvSetConn (old new : option vlc_http_conn).

(** ** The collaborators

    [W] is the state of everything outside the manager (the network, the
    peers, the allocator).  Each collaborator reads and updates it. *)
Record Collab (W : Type) := mk_collab {
  asprintf_ok : W -> bool * W;
  vlc_getProxyUrl : string -> W -> option string * W;
  vlc_UrlParse : string -> vlc_url_t;
  vlc_tls_SocketOpenTLS :
    vlc_tls_creds_t -> string -> N -> string -> list string -> W ->
    option (vlc_tls_t * option string) * W;
  vlc_https_connect_proxy :
    vlc_object_t -> vlc_tls_creds_t -> string -> N -> bool -> string -> W ->
    (option vlc_tls_t * bool) * W;
  vlc_tls_SocketOpenTCP :
    vlc_object_t -> string -> N -> W -> option vlc_tls_t * W;
  vlc_tls_ClientCreate : vlc_object_t -> W -> option vlc_tls_creds_t * W;
  vlc_http_stream_open :
    vlc_http_conn -> vlc_http_msg -> W -> option vlc_http_stream * W;
  vlc_http_msg_get_initial : vlc_http_stream -> W -> option vlc_http_msg * W;
  vlc_h2_conn_create :
    vlc_object_t -> vlc_tls_t -> W -> option vlc_http_conn * W;
  vlc_h1_conn_create :
    vlc_object_t -> vlc_tls_t -> bool -> W -> option vlc_http_conn * W;
  vlc_tls_Close : vlc_tls_t -> W -> W;
  vlc_http_conn_release : vlc_http_conn -> W -> W;
  vlc_tls_Delete : vlc_tls_creds_t -> W -> W;
  malloc_ok : W -> bool * W
}.

Arguments asprintf_ok {W}.
Arguments vlc_getProxyUrl {W}.
Arguments vlc_UrlParse {W}.
Arguments vlc_tls_SocketOpenTLS {W}.
Arguments vlc_https_connect_proxy {W}.
Arguments vlc_tls_SocketOpenTCP {W}.
Arguments vlc_tls_ClientCreate {W}.
Arguments vlc_http_stream_open {W}.
Arguments vlc_http_msg_get_initial {W}.
Arguments vlc_h2_conn_create {W}.
Arguments vlc_h1_conn_create {W}.
Arguments vlc_tls_Close {W}.
Arguments vlc_http_conn_release {W}.
Arguments vlc_tls_Delete {W}.
Arguments malloc_ok {W}.

(** ** A state monad with abort

    The state is the manager, the world and the trace.  [Abort] is a failed
    [assert]. *)
Record state (W : Type) := mk_state {
  st_mgr : vlc_http_mgr;
  st_world : W;
  st_trace : list event
}.

Arguments mk_state {W}.
Arguments st_mgr {W}.
Arguments st_world {W}.
Arguments st_trace {W}.

Inductive outcome (S A : Type) :=
| Ok (a : A) (s : S)
| Abort.

Arguments Ok {S A}.
Arguments Abort {S A}.

Definition M (W A : Type) := state W -> outcome (state W) A.

Definition ret {W A} (a : A) : M W A := fun s => Ok a s.

Definition bind {W A B} (m : M W A) (k : A -> M W B) : M W B :=
  fun s => match m s with
           | Ok a s' => k a s'
           | Abort => Abort
           end.

Declare Scope mgr_scope.
Delimit Scope mgr_scope with mgr.
Notation "x <- c ;; k" := (bind c (fun x => k))
  (at level 100, c at next level, right associativity) : mgr_scope.
Notation "c ;; k" := (bind c (fun _ => k))
  (at level 100, right associativity) : mgr_scope.
Open Scope mgr_scope.

Section Manager.

Context {W : Type}.
Variable E : Collab W.

(** Reading the manager. *)
Definition get_mgr : M W vlc_http_mgr := fun s => Ok (st_mgr s) s.

(** [mgr->creds = c]. *)
Definition set_creds (c : option vlc_tls_creds_t) : M W unit :=
  fun s => Ok tt (mk_state (with_creds (st_mgr s) c) (st_world s) (st_trace s)).

(** [mgr->conn = c]; the overwritten value goes to the trace. *)
Definition set_conn (c : option vlc_http_conn) : M W unit :=
  fun s => Ok tt (mk_state (with_conn (st_mgr s) c) (st_world s)
                    (st_trace s ++ [EvSetConn (conn (st_mgr s)) c])).

(** A call that answers: the world moves on, the event is logged. *)
Definition call {A} (f : W -> A * W) (ev : A -> event) : M W A :=
  fun s => let (a, w) := f (st_world s) in
           Ok a (mk_state (st_mgr s) w (st_trace s ++ [ev a])).

(** A call that answers and is not logged (allocation). *)
Definition call_quiet {A} (f : W -> A * W) : M W A :=
  fun s => let (a, w) := f (st_world s) in
           Ok a (mk_state (st_mgr s) w (st_trace s)).

(** A call that returns nothing. *)
Definition call_void (f : W -> W) (ev : event) : M W unit :=
  fun s => Ok tt (mk_state (st_mgr s) (f (st_world s)) (st_trace s ++ [ev])).

(** [assert(b)]. *)
Definition c_assert (b : bool) : M W unit :=
  fun s => if b then Ok tt s else Abort.

(** ** The dialer *)

(** [(alp != NULL) && !strcmp(alp, "h2")]. *)
Definition alp_is_h2 (alp : option string) : bool :=
  match alp with
  | Some a => String.eqb a "h2"
  | None => false
  end.

(** [alpn + !*two] over [{ "h2", "http/1.1", NULL }]. *)
Definition alpn_offer (two : bool) : list string :=
  skipn (if two then 0 else 1) ["h2"; "http/1.1"].

(** [vlc_https_connect].  [two] is the in/out flag [*two]; the result pairs
    the transport with the flag's value on return. *)
Definition vlc_https_connect (cr : vlc_tls_creds_t) (name : string)
    (port : N) (two : bool) : M W (option vlc_tls_t * bool) :=
  let port := if N.eqb port 0 then 443%N else port in
  let alpn := alpn_offer two in
  r <- call (vlc_tls_SocketOpenTLS E cr name port "https" alpn)
            (EvSocketOpenTLS cr name port "https" alpn) ;;
  match r with
  | Some (tls, alp) => ret (Some tls, alp_is_h2 alp)
  | None => ret (None, two)
  end.

(** [strchr(s, c) != NULL]. *)
Definition strchr (s : string) (c : ascii) : bool :=
  match index 0 (String c EmptyString) s with
  | Some _ => true
  | None => false
  end.

(** [%u]. *)
Definition fmt_u (n : N) : string := NilZero.string_of_uint (N.to_uint n).

(** The URL [asprintf] builds in [vlc_http_proxy_find]. *)
Definition proxy_query_url (hostname : string) (port : N) (secure : bool)
    : string :=
  let s := if secure then "s" else "" in
  (if strchr hostname ":"%char then
     if N.eqb port 0 then "http" ++ s ++ "://[" ++ hostname ++ "]"
     else "http" ++ s ++ "://[" ++ hostname ++ "]:" ++ fmt_u port
   else
     if N.eqb port 0 then "http" ++ s ++ "://" ++ hostname
     else "http" ++ s ++ "://" ++ hostname ++ ":" ++ fmt_u port)%string.

Arguments proxy_query_url : simpl never.

(** [vlc_http_proxy_find]. *)
Definition vlc_http_proxy_find (hostname : string) (port : N) (secure : bool)
    : M W (option string) :=
  let url := proxy_query_url hostname port secure in
  ok <- call_quiet (asprintf_ok E) ;;
  if ok then call (vlc_getProxyUrl E url) (EvGetProxyUrl url)
  else ret None.

(** [vlc_https_connect_i11e]. *)
Definition vlc_https_connect_i11e (cr : vlc_tls_creds_t) (host : string)
    (port : N) (http_two : bool) : M W (option vlc_tls_t * bool) :=
  proxy <- vlc_http_proxy_find host port true ;;
  match proxy with
  | Some p =>
      call (vlc_https_connect_proxy E (creds_parent cr) cr host port http_two p)
           (EvConnectProxy (creds_parent cr) cr host port http_two p)
  | None => vlc_https_connect cr host port http_two
  end.

(** [vlc_http_connect_i11e]; the result pairs the transport with
    [*proxied]. *)
Definition vlc_http_connect_i11e (o : vlc_object_t) (host : string)
    (port : N) : M W (option vlc_tls_t * bool) :=
  proxy <- vlc_http_proxy_find host port false ;;
  match proxy with
  | Some p =>
      let url := vlc_UrlParse E p in
      tls <- match psz_host url with
             | Some h =>
                 let pp := if N.eqb (i_port url) 0 then 80%N else i_port url in
                 call (vlc_tls_SocketOpenTCP E o h pp) (EvSocketOpenTCP o h pp)
             | None => ret None
             end ;;
      ret (tls, true)
  | None =>
      let pp := if N.eqb port 0 then 80%N else port in
      tls <- call (vlc_tls_SocketOpenTCP E o host pp)
                  (EvSocketOpenTCP o host pp) ;;
      ret (tls, false)
  end.

(** ** The connection cache *)

(** [vlc_http_mgr_find]: [(void) host; (void) port; return mgr->conn;]. *)
Definition vlc_http_mgr_find (host : string) (port : N)
    : M W (option vlc_http_conn) :=
  mgr <- get_mgr ;;
  ret (conn mgr).

(** [mgr->conn == conn] for a non-null [conn]. *)
Definition conn_is (slot : option vlc_http_conn) (c : vlc_http_conn) : bool :=
  match slot with
  | Some c' => Nat.eqb c' c
  | None => false
  end.

(** [vlc_http_mgr_release]. *)
Definition vlc_http_mgr_release (c : vlc_http_conn) : M W unit :=
  mgr <- get_mgr ;;
  c_assert (conn_is (conn mgr) c) ;;
  set_conn None ;;
  call_void (vlc_http_conn_release E c) (EvConnRelease c).

(** ** The dispatcher *)

(** [vlc_http_mgr_reuse]. *)
Definition vlc_http_mgr_reuse (host : string) (port : N) (req : vlc_http_msg)
    : M W (option vlc_http_msg) :=
  found <- vlc_http_mgr_find host port ;;
  match found with
  | None => ret None
  | Some c =>
      stream <- call (vlc_http_stream_open E c req) (EvStreamOpen c req) ;;
      match stream with
      | Some s =>
          m <- call (vlc_http_msg_get_initial E s) (EvGetInitial s) ;;
          match m with
          | Some m => ret (Some m)
          | None => vlc_http_mgr_release c ;; ret None
          end
      | None => vlc_http_mgr_release c ;; ret None
      end
  end.

(** [vlc_https_request]. *)
Definition vlc_https_request (host : string) (port : N) (req : vlc_http_msg)
    : M W (option vlc_http_msg) :=
  mgr <- get_mgr ;;
  match creds mgr, conn mgr with
  | None, Some _ => ret None
  | _, _ =>
      cr <- match creds mgr with
            | None =>
                cr <- call (vlc_tls_ClientCreate E (obj mgr))
                           (EvClientCreate (obj mgr)) ;;
                set_creds cr ;;
                ret cr
            | Some cr => ret (Some cr)
            end ;;
      match cr with
      | None => ret None
      | Some cr =>
          resp <- vlc_http_mgr_reuse host port req ;;
          match resp with
          | Some m => ret (Some m)
          | None =>
              d <- vlc_https_connect_i11e cr host port true ;;
              match d with
              | (None, _) => ret None
              | (Some tls, http2) =>
                  c <- (if http2
                        then call (vlc_h2_conn_create E (obj mgr) tls)
                                  (EvH2Create (obj mgr) tls)
                        else call (vlc_h1_conn_create E (obj mgr) tls false)
                                  (EvH1Create (obj mgr) tls false)) ;;
                  match c with
                  | None =>
                      call_void (vlc_tls_Close E tls) (EvTlsClose tls) ;;
                      ret None
                  | Some c =>
                      set_conn (Some c) ;;
                      vlc_http_mgr_reuse host port req
                  end
              end
          end
      end
  end.

(** [vlc_http_request]. *)
Definition vlc_http_request (host : string) (port : N) (req : vlc_http_msg)
    : M W (option vlc_http_msg) :=
  mgr <- get_mgr ;;
  match creds mgr, conn mgr with
  | Some _, Some _ => ret None
  | _, _ =>
      resp <- vlc_http_mgr_reuse host port req ;;
      match resp with
      | Some m => ret (Some m)
      | None =>
          d <- vlc_http_connect_i11e (obj mgr) host port ;;
          match d with
          | (None, _) => ret None
          | (Some tls, proxy) =>
              c <- (if use_h2c mgr
                    then call (vlc_h2_conn_create E (obj mgr) tls)
                              (EvH2Create (obj mgr) tls)
                    else call (vlc_h1_conn_create E (obj mgr) tls proxy)
                              (EvH1Create (obj mgr) tls proxy)) ;;
              match c with
              | None =>
                  call_void (vlc_tls_Close E tls) (EvTlsClose tls) ;;
                  ret None
              | Some c =>
                  set_conn (Some c) ;;
                  vlc_http_mgr_reuse host port req
              end
          end
      end
  end.

(** [vlc_http_mgr_request]. *)
Definition vlc_http_mgr_request (https : bool) (host : string) (port : N)
    (m : vlc_http_msg) : M W (option vlc_http_msg) :=
  (if https then vlc_https_request else vlc_http_request) host port m.

(** [vlc_http_mgr_get_jar]. *)
Definition vlc_http_mgr_get_jar : M W (option vlc_http_cookie_jar_t) :=
  mgr <- get_mgr ;;
  ret (jar mgr).

(** ** Life cycle *)

(** [vlc_http_mgr_create]: [None] when [malloc] fails. *)
Definition vlc_http_mgr_create (o : vlc_object_t)
    (j : option vlc_http_cookie_jar_t) (h2c : bool) (w : W)
    : option (state W) :=
  let (ok, w') := malloc_ok E w in
  if ok then Some (mk_state (mk_mgr o None j None h2c) w' [])
  else None.

(** [vlc_http_mgr_destroy]. *)
Definition vlc_http_mgr_destroy : M W unit :=
  mgr <- get_mgr ;;
  match conn mgr with
  | Some c => vlc_http_mgr_release c
  | None => ret tt
  end ;;
  mgr <- get_mgr ;;
  match creds mgr with
  | Some cr => call_void (vlc_tls_Delete E cr) (EvTlsDelete cr)
  | None => ret tt
  end.

(** What a client does with a manager between create and destroy. *)
Inductive op :=
| OpRequest (https : bool) (host : string) (port : N) (m : vlc_http_msg)
| OpGetJar.

Definition run_op (o : op) : M W unit :=
  match o with
  | OpRequest https host port m =>
      vlc_http_mgr_request https host port m ;; ret tt
  | OpGetJar => vlc_http_mgr_get_jar ;; ret tt
  end.

Fixpoint run_ops (ops : list op) : M W unit :=
  match ops with
  | [] => ret tt
  | o :: rest => run_op o ;; run_ops rest
  end.

End Manager.

(** ** Reading traces *)

(** A dial attempt: one of the three calls that open a transport. *)
Definition is_dial (e : event) : bool :=
  match e with
  | EvSocketOpenTLS _ _ _ _ _ _ | EvConnectProxy _ _ _ _ _ _ _
  | EvSocketOpenTCP _ _ _ _ => true
  | _ => false
  end.

Definition is_stream_open (e : event) : bool :=
  match e with
  | EvStreamOpen _ _ _ => true
  | _ => false
  end.

(** A stream that could not be opened, or whose initial message did not
    come. *)
Definition is_stream_failure (e : event) : bool :=
  match e with
  | EvStreamOpen _ _ None | EvGetInitial _ None => true
  | _ => false
  end.

Definition count (p : event -> bool) (tr : list event) : nat :=
  length (filter p tr).

Definition dial_attempts := count is_dial.
Definition stream_open_attempts := count is_stream_open.

(** Some stream failure comes after some dial attempt. *)
Fixpoint stream_failed_after_dial (tr : list event) : bool :=
  match tr with
  | [] => false
  | e :: rest =>
      if is_dial e then existsb is_stream_failure rest
      else stream_failed_after_dial rest
  end.

(** A call to one of the two connection constructors. *)
Definition is_construct (e : event) : bool :=
  match e with
  | EvH2Create _ _ _ | EvH1Create _ _ _ _ => true
  | _ => false
  end.

(** A store of a connection into the slot. *)
Definition is_install (e : event) : bool :=
  match e with
  | EvSetConn _ (Some _) => true
  | _ => false
  end.

(** *** Connections and credentials along a trace *)

(** What an event does to the number of connections in existence: a
    constructor that answers makes one, a release ends one. *)
Definition conn_step (e : event) : Z :=
  match e with
  | EvH2Create _ _ (Some _) | EvH1Create _ _ _ (Some _) => 1%Z
  | EvConnRelease _ => (-1)%Z
  | _ => 0%Z
  end.

(** The connections made and not yet released along a trace. *)
Fixpoint live (tr : list event) : Z :=
  match tr with
  | [] => 0%Z
  | e :: rest => (conn_step e + live rest)%Z
  end.

(** Starting with [n] connections, the count stays within 0 and 1 after
    every event of the trace. *)
Fixpoint held_ok (n : Z) (tr : list event) : bool :=
  match tr with
  | [] => true
  | e :: rest =>
      let n' := (n + conn_step e)%Z in
      (0 <=? n')%Z && (n' <=? 1)%Z && held_ok n' rest
  end.

(** Every store over an occupied slot stores [NULL] and is followed at once
    by the release of the connection it overwrites. *)
Fixpoint stores_ok (tr : list event) : bool :=
  match tr with
  | [] => true
  | EvSetConn (Some c) new :: rest =>
      match new, rest with
      | None, EvConnRelease c' :: _ => Nat.eqb c c' && stores_ok rest
      | _, _ => false
      end
  | _ :: rest => stores_ok rest
  end.

Definition is_creds_attempt (e : event) : bool :=
  match e with
  | EvClientCreate _ _ => true
  | _ => false
  end.

Definition is_creds_created (e : event) : bool :=
  match e with
  | EvClientCreate _ (Some _) => true
  | _ => false
  end.

Definition is_creds_deleted (e : event) : bool :=
  match e with
  | EvTlsDelete _ => true
  | _ => false
  end.

Definition occ {A} (o : option A) : Z :=
  match o with
  | Some _ => 1%Z
  | None => 0%Z
  end.

Definition occ_nat {A} (o : option A) : nat :=
  match o with
  | Some _ => 1
  | None => 0
  end.

(** What holds of a manager between two operations: the connections in
    existence are the one in the slot, if any; the credentials made are the
    ones in the [creds] field, if any, and none were deleted. *)
Record inv {W : Type} (st : state W) : Prop := mk_inv {
  inv_held : held_ok 0%Z (st_trace st) = true;
  inv_live : live (st_trace st) = occ (conn (st_mgr st));
  inv_stores : stores_ok (st_trace st) = true;
  inv_created : count is_creds_created (st_trace st) = occ_nat (creds (st_mgr st));
  inv_deleted : count is_creds_deleted (st_trace st) = 0%nat
}.

(** *** More readers, for the dialer and the order of a request *)

Definition is_proxy_found (e : event) : bool :=
  match e with
  | EvGetProxyUrl _ (Some _) => true
  | _ => false
  end.

(** A proxy lookup or a dial attempt: the dialer is at work. *)
Definition is_dialing (e : event) : bool :=
  match e with
  | EvGetProxyUrl _ _ => true
  | _ => is_dial e
  end.

(** The two dials that end in a TLS session. *)
Definition is_tls_dial (e : event) : bool :=
  match e with
  | EvSocketOpenTLS _ _ _ _ _ _ | EvConnectProxy _ _ _ _ _ _ _ => true
  | _ => false
  end.

(** The transport a dial event opened, if it opened one. *)
Definition dialed (e : event) : option vlc_tls_t :=
  match e with
  | EvSocketOpenTLS _ _ _ _ _ (Some (tls, _)) => Some tls
  | EvConnectProxy _ _ _ _ _ _ (Some tls, _) => Some tls
  | EvSocketOpenTCP _ _ _ (Some tls) => Some tls
  | _ => None
  end.

Definition is_dial_success (e : event) : bool :=
  match dialed e with
  | Some _ => true
  | None => false
  end.

Definition is_dial_failure (e : event) : bool :=
  is_dial e && negb (is_dial_success e).

Definition is_construct_failure (e : event) : bool :=
  match e with
  | EvH2Create _ _ None | EvH1Create _ _ _ None => true
  | _ => false
  end.

Definition is_tls_close (e : event) : bool :=
  match e with
  | EvTlsClose _ => true
  | _ => false
  end.

Definition is_release (e : event) : bool :=
  match e with
  | EvConnRelease _ => true
  | _ => false
  end.

(** The trace from its first event that satisfies [p] on. *)
Fixpoint from (p : event -> bool) (tr : list event) : list event :=
  match tr with
  | [] => []
  | e :: rest => if p e then tr else from p rest
  end.

(** The steps of a request that dials, in the order of the source: proxy
    lookup, dial, construction, then either the closing of the transport or
    the store into the slot, stream open, initial message, and the two
    actions of [vlc_http_mgr_release]. *)
Definition phase (e : event) : nat :=
  match e with
  | EvGetProxyUrl _ _ => 1
  | EvSocketOpenTLS _ _ _ _ _ _ | EvConnectProxy _ _ _ _ _ _ _
  | EvSocketOpenTCP _ _ _ _ => 2
  | EvH2Create _ _ _ | EvH1Create _ _ _ _ => 3
  | EvTlsClose _ => 4
  | EvSetConn _ (Some _) => 4
  | EvStreamOpen _ _ _ => 5
  | EvGetInitial _ _ => 6
  | EvSetConn _ None => 7
  | EvConnRelease _ => 8
  | EvClientCreate _ _ | EvTlsDelete _ => 0
  end.

Fixpoint ascending (l : list nat) : bool :=
  match l with
  | a :: ((b :: _) as rest) => Nat.ltb a b && ascending rest
  | _ => true
  end.

(** The prefix of the trace before its first event that satisfies [p]. *)
Fixpoint upto (p : event -> bool) (tr : list event) : list event :=
  match tr with
  | [] => []
  | e :: rest => if p e then [] else e :: upto p rest
  end.

(** The connection a constructor event made, if it made one. *)
Definition constructed (e : event) : option vlc_http_conn :=
  match e with
  | EvH2Create _ _ r | EvH1Create _ _ _ r => r
  | _ => None
  end.

(** Whether a TLS dial event says that HTTP/2 was negotiated: the ALPN
    answer of a direct dial, the flag the proxy tunnel hands back. *)
Definition negotiated_h2 (e : event) : bool :=
  match e with
  | EvSocketOpenTLS _ _ _ _ _ (Some (_, alp)) => alp_is_h2 alp
  | EvConnectProxy _ _ _ _ _ _ (_, two) => two
  | _ => false
  end.

(** ** A scripted world, for concrete runs

    The world is the list of answers still to come: each fallible call
    consumes one, [true] for success.  The proxy lookup and the ALPN answer
    are fixed per script. *)
Module Script.

Definition pop (w : list bool) : bool * list bool :=
  match w with
  | [] => (false, [])
  | b :: rest => (b, rest)
  end.

Definition answer {A} (a : A) (w : list bool) : option A * list bool :=
  let (b, rest) := pop w in ((if b then Some a else None), rest).

Definition the_creds : vlc_tls_creds_t := mk_creds 50 1.

Definition collab (proxy : option string) (alp : option string)
    : Collab (list bool) :=
  mk_collab (list bool)
    (fun w => (true, w))
    (fun _ w => (proxy, w))
    (fun s => mk_url (Some "proxy.test") 0)
    (fun _ _ _ _ _ w => answer (20, alp) w)
    (fun _ _ _ _ two _ w => let (r, w') := answer 21 w in ((r, two), w'))
    (fun _ _ _ w => answer 22 w)
    (fun _ w => answer the_creds w)
    (fun c _ w => answer (c + 100) w)
    (fun s w => answer (s + 100) w)
    (fun _ tls w => answer (tls + 10) w)
    (fun _ tls _ w => answer (tls + 11) w)
    (fun _ w => w)
    (fun _ w => w)
    (fun _ w => w)
    (fun w => (true, w)).

(** A plain direct world and a manager, fresh or holding connection 7. *)
Definition direct := collab None (Some "h2").
Definition fresh (w : list bool) : state (list bool) :=
  mk_state (mk_mgr 1 None None None false) w [].
Definition holding (cr : option vlc_tls_creds_t) (w : list bool)
    : state (list bool) :=
  mk_state (mk_mgr 1 cr None (Some 7) false) w [].

End Script.



(** A sequence of operations, keeping the answers of the requests. *)
Fixpoint run_requests {W} (E : Collab W) (ops : list op)
    : M W (list (option vlc_http_msg)) :=
  match ops with
  | [] => ret []
  | OpRequest https host port m :: rest =>
      r <- vlc_http_mgr_request E https host port m ;;
      rs <- run_requests E rest ;;
      ret (r :: rs)
  | OpGetJar :: rest => vlc_http_mgr_get_jar ;; run_requests E rest
  end.

(** ** Symbolic execution of the monadic code *)

(** Unfolds the manager down to the collaborator calls. *)
Ltac unfold_mgr :=
  unfold vlc_http_mgr_destroy, vlc_http_mgr_request, vlc_https_request,
    vlc_http_request, vlc_http_mgr_reuse, vlc_http_mgr_release, vlc_http_mgr_find,
    vlc_https_connect_i11e, vlc_http_connect_i11e, vlc_https_connect,
    vlc_http_proxy_find, vlc_http_mgr_get_jar,
    bind, ret, call, call_quiet, call_void, c_assert, get_mgr, set_conn,
    set_creds, with_conn, with_creds in *.

(** One case split on the answer of the next collaborator. *)
Ltac split_innermost :=
  match goal with
  | |- context [match ?x with _ => _ end] =>
      lazymatch x with
      | context [match _ with _ => _ end] => fail
      | _ => destruct x eqn:?
      end
  end.

(** Runs the code along every path. *)
Ltac exec :=
  unfold_mgr; simpl; rewrite ?Nat.eqb_refl; simpl;
  repeat (split_innermost; simpl; rewrite ?Nat.eqb_refl; simpl).

Ltac flat := simpl; rewrite <- ?app_assoc; simpl.

(** Closes [tr' = tr ++ ?delta] once [tr'] is [tr] with events appended. *)
Ltac trace_eq := flat; first [reflexivity | symmetry; apply app_nil_r].

(** Identifies the answer, the final state and the new events of a concrete
    run from the equations a theorem on requests gives. *)
Ltac concrete_run Hrun Htr :=
  vm_compute in Hrun; inversion Hrun; subst; clear Hrun;
  simpl in Htr; symmetry in Htr; subst.

(** Every path of an operation from the state [st]. *)
Ltac use_request st :=
  destruct st as [[?o ?cr ?j ?slot ?h2c] ?w ?tr];
  try (destruct cr); try (destruct slot); exec.

(** ** The connection cache *)

(** C9. [vlc_http_mgr_find] answers the content of the slot, whatever the
    host and the port it is asked for, and changes nothing: two lookups for
    two origins from the same state are the same. *)
Theorem find_ignores_origin :
  forall (W : Type) (st : state W) (host1 host2 : string) (port1 port2 : N),
    vlc_http_mgr_find host1 port1 st = Ok (conn (st_mgr st)) st /\
    vlc_http_mgr_find host2 port2 st = vlc_http_mgr_find host1 port1 st.
Proof.
  intros. split; reflexivity.
Qed.

(** ** Reuse of the cached connection *)

(** C1. [vlc_http_mgr_reuse], case by case.  With an empty slot it answers
    nothing and the state (manager, world, trace) is untouched.  With a
    cached connection [c] it opens a stream on [c] with the request; when the
    stream cannot be opened, or when its initial message does not come, the
    slot is cleared, [c] is released and the answer is nothing; when the
    initial message comes it is the answer and the manager is unchanged. *)
Theorem reuse_spec :
  forall (W : Type) (E : Collab W) (host : string) (port : N)
         (req : vlc_http_msg) (st : state W),
    (conn (st_mgr st) = None ->
     vlc_http_mgr_reuse E host port req st = Ok None st) /\
    (forall c w1,
       conn (st_mgr st) = Some c ->
       vlc_http_stream_open E c req (st_world st) = (None, w1) ->
       vlc_http_mgr_reuse E host port req st =
       Ok None (mk_state (with_conn (st_mgr st) None)
                         (vlc_http_conn_release E c w1)
                         (st_trace st ++
                          [EvStreamOpen c req None; EvSetConn (Some c) None;
                           EvConnRelease c]))) /\
    (forall c s w1 w2,
       conn (st_mgr st) = Some c ->
       vlc_http_stream_open E c req (st_world st) = (Some s, w1) ->
       vlc_http_msg_get_initial E s w1 = (None, w2) ->
       vlc_http_mgr_reuse E host port req st =
       Ok None (mk_state (with_conn (st_mgr st) None)
                         (vlc_http_conn_release E c w2)
                         (st_trace st ++
                          [EvStreamOpen c req (Some s); EvGetInitial s None;
                           EvSetConn (Some c) None; EvConnRelease c]))) /\
    (forall c s m w1 w2,
       conn (st_mgr st) = Some c ->
       vlc_http_stream_open E c req (st_world st) = (Some s, w1) ->
       vlc_http_msg_get_initial E s w1 = (Some m, w2) ->
       vlc_http_mgr_reuse E host port req st =
       Ok (Some m) (mk_state (st_mgr st) w2
                             (st_trace st ++
                              [EvStreamOpen c req (Some s);
                               EvGetInitial s (Some m)]))).
Proof.
  intros W E host port req [[o cr j slot h2c] w tr]; simpl.
  repeat split; intros; subst slot; unfold_mgr; simpl;
    repeat match goal with
           | H : _ = (_, _) |- _ => rewrite H; simpl
           end;
    rewrite ?Nat.eqb_refl; flat; reflexivity.
Qed.

Lemma reuse_spec_witness :
  vlc_http_mgr_reuse Script.direct "example.test" 0 5 (Script.fresh [true]) =
    Ok None (Script.fresh [true]) /\
  vlc_http_mgr_reuse Script.direct "example.test" 0 5
      (Script.holding None [false; true]) =
    Ok None (mk_state (mk_mgr 1 None None None false) [true]
               [EvStreamOpen 7 5 None; EvSetConn (Some 7) None;
                EvConnRelease 7]) /\
  vlc_http_mgr_reuse Script.direct "example.test" 0 5
      (Script.holding None [true; false]) =
    Ok None (mk_state (mk_mgr 1 None None None false) []
               [EvStreamOpen 7 5 (Some 107); EvGetInitial 107 None;
                EvSetConn (Some 7) None; EvConnRelease 7]) /\
  vlc_http_mgr_reuse Script.direct "example.test" 0 5
      (Script.holding None [true; true]) =
    Ok (Some 207) (mk_state (mk_mgr 1 None None (Some 7) false) []
                     [EvStreamOpen 7 5 (Some 107);
                      EvGetInitial 107 (Some 207)]).
Proof.
  split; [|split; [|split]].
  - apply (reuse_spec _ Script.direct "example.test" 0%N 5
             (Script.fresh [true])). reflexivity.
  - apply (reuse_spec _ Script.direct "example.test" 0%N 5
             (Script.holding None [false; true]) ); reflexivity.
  - apply (reuse_spec _ Script.direct "example.test" 0%N 5
             (Script.holding None [true; false])) with (w1 := [false]);
      reflexivity.
  - apply (reuse_spec _ Script.direct "example.test" 0%N 5
             (Script.holding None [true; true])) with (w1 := [true]);
      reflexivity.
Defined.

(** ** Scheme mixing *)

(** C3. With an occupied slot, an HTTPS request on a manager without
    credentials, and a plain HTTP request on a manager with credentials,
    answer nothing and leave the whole state as it was: the manager (so the
    cached connection and the credentials field), the world and the trace
    (so no dial and no credentials were asked for). *)
Theorem scheme_mix_rejected :
  forall (W : Type) (E : Collab W) (host : string) (port : N)
         (req : vlc_http_msg) (st : state W) (c : vlc_http_conn),
    conn (st_mgr st) = Some c ->
    (creds (st_mgr st) = None ->
     vlc_http_mgr_request E true host port req st = Ok None st) /\
    (forall cr, creds (st_mgr st) = Some cr ->
     vlc_http_mgr_request E false host port req st = Ok None st).
Proof.
  intros W E host port req [[o cr j slot h2c] w tr] c Hc; simpl in *.
  split; intros; subst; reflexivity.
Qed.

Lemma scheme_mix_rejected_witness :
  vlc_http_mgr_request Script.direct true "example.test" 443 5
      (Script.holding None [true; true]) =
    Ok None (Script.holding None [true; true]) /\
  vlc_http_mgr_request Script.direct false "example.test" 80 5
      (Script.holding (Some Script.the_creds) [true; true]) =
    Ok None (Script.holding (Some Script.the_creds) [true; true]).
Proof.
  split.
  - apply (proj1 (scheme_mix_rejected _ Script.direct "example.test" 443%N 5
                      (Script.holding None [true; true]) 7 eq_refl)).
    reflexivity.
  - apply (proj2 (scheme_mix_rejected _ Script.direct "example.test" 80%N 5
                      (Script.holding (Some Script.the_creds) [true; true]) 7
                      eq_refl) Script.the_creds).
    reflexivity.
Defined.

(** ** The dialer *)

Lemma alp_is_h2_spec (alp : option string) :
  alp_is_h2 alp = true <-> alp = Some "h2".
Proof.
  destruct alp as [a|]; simpl.
  - rewrite String.eqb_eq. split; congruence.
  - split; discriminate.
Qed.

(** C8. The port the dialer hands to the socket layer.  A TLS dial
    ([vlc_https_connect]) asks for port 443 when its port argument is 0 and
    for the argument otherwise.  A plaintext dial for which no proxy is found
    asks for the host at port 80 when the port is 0 and at the port
    otherwise.  A plaintext dial through a proxy asks for the proxy host, at
    port 80 when the proxy URL has no port and at the URL port otherwise. *)
Theorem default_ports :
  forall (W : Type) (E : Collab W) (st : state W),
    (forall cr name port two,
       exists r st' ans,
         vlc_https_connect E cr name port two st = Ok r st' /\
         st_trace st' = st_trace st ++
           [EvSocketOpenTLS cr name
              (match port with 0%N => 443%N | _ => port end)
              "https" (alpn_offer two) ans]) /\
    (forall o host port st1,
       vlc_http_proxy_find E host port false st = Ok None st1 ->
       exists tls st',
         vlc_http_connect_i11e E o host port st = Ok (tls, false) st' /\
         st_trace st' = st_trace st1 ++
           [EvSocketOpenTCP o host
              (match port with 0%N => 80%N | _ => port end) tls]) /\
    (forall o host port p h st1,
       vlc_http_proxy_find E host port false st = Ok (Some p) st1 ->
       psz_host (vlc_UrlParse E p) = Some h ->
       exists tls st',
         vlc_http_connect_i11e E o host port st = Ok (tls, true) st' /\
         st_trace st' = st_trace st1 ++
           [EvSocketOpenTCP o h
              (match i_port (vlc_UrlParse E p) with
               | 0%N => 80%N
               | q => q
               end) tls]).
Proof.
  intros W E st. split; [|split].
  - intros cr name port two.
    unfold vlc_https_connect, bind, call, ret.
    destruct port; simpl;
      match goal with
      | |- context [vlc_tls_SocketOpenTLS E ?a ?b ?c ?d ?e ?w] =>
          destruct (vlc_tls_SocketOpenTLS E a b c d e w) as [[[tls alp]|] w']
      end; simpl; do 3 eexists; split; reflexivity.
  - intros o host port st1 H.
    unfold vlc_http_connect_i11e, bind. rewrite H.
    unfold call, ret.
    destruct port; simpl;
      match goal with
      | |- context [vlc_tls_SocketOpenTCP E ?a ?b ?c ?w] =>
          destruct (vlc_tls_SocketOpenTCP E a b c w) as [tls w']
      end; simpl; do 2 eexists; split; reflexivity.
  - intros o host port p h st1 H Hh.
    unfold vlc_http_connect_i11e, bind. rewrite H, Hh.
    unfold call, ret.
    destruct (i_port (vlc_UrlParse E p)); simpl;
      match goal with
      | |- context [vlc_tls_SocketOpenTCP E ?a ?b ?c ?w] =>
          destruct (vlc_tls_SocketOpenTCP E a b c w) as [tls w']
      end; simpl; do 2 eexists; split; reflexivity.
Qed.

Example proxy_query_url_plain :
  proxy_query_url "example.test" 0 true = "https://example.test".
Proof. reflexivity. Qed.

Example proxy_query_url_ipv6 :
  proxy_query_url "::1" 8080 false = "http://[::1]:8080".
Proof. reflexivity. Qed.

Lemma default_ports_witness :
  (exists tls st',
     vlc_http_connect_i11e Script.direct 1 "example.test" 0
       (Script.fresh [true]) = Ok (tls, false) st' /\
     st_trace st' =
       [EvGetProxyUrl "http://example.test" None;
        EvSocketOpenTCP 1 "example.test" 80 tls]) /\
  (exists tls st',
     vlc_http_connect_i11e (Script.collab (Some "http://proxy.test") None)
       1 "example.test" 8080 (Script.fresh [true]) = Ok (tls, true) st' /\
     st_trace st' =
       [EvGetProxyUrl "http://example.test:8080" (Some "http://proxy.test");
        EvSocketOpenTCP 1 "proxy.test" 80 tls]).
Proof.
  split.
  - exact (proj1 (proj2 (default_ports _ Script.direct (Script.fresh [true])))
             1 "example.test" 0%N _ eq_refl).
  - exact (proj2 (proj2 (default_ports _
                           (Script.collab (Some "http://proxy.test") None)
                           (Script.fresh [true])))
             1 "example.test" 8080%N "http://proxy.test" "proxy.test" _
             eq_refl eq_refl).
Defined.

(** C4. The direct TLS dial offers [h2] then [http/1.1] when its flag
    permits HTTP/2 and [http/1.1] alone when it does not, and on success its
    flag says whether the negotiated protocol is [h2].  In an HTTPS request
    the offer is always [h2] then [http/1.1], and over a transport that the
    direct dial opened exactly one connection is constructed: an HTTP/2 one
    when the negotiated protocol is [h2], an HTTP/1.1 one with [proxied]
    false for any other answer or none. *)
Theorem alpn_selects_version :
  forall (W : Type) (E : Collab W) (host : string) (port : N)
         (req : vlc_http_msg) (st : state W),
    (forall cr name two,
       exists r st' p ans,
         vlc_https_connect E cr name port two st = Ok r st' /\
         st_trace st' = st_trace st ++
           [EvSocketOpenTLS cr name p "https"
              (if two then ["h2"; "http/1.1"] else ["http/1.1"]) ans] /\
         (forall tls alp, ans = Some (tls, alp) ->
            (alp = Some "h2" -> r = (Some tls, true)) /\
            (alp <> Some "h2" -> r = (Some tls, false)))) /\
    (exists r st' delta,
       vlc_https_request E host port req st = Ok r st' /\
       st_trace st' = st_trace st ++ delta /\
       forall cr name p svc offer tls alp,
         In (EvSocketOpenTLS cr name p svc offer (Some (tls, alp))) delta ->
         offer = ["h2"; "http/1.1"] /\
         (alp = Some "h2" ->
          exists c, filter is_construct delta =
                    [EvH2Create (obj (st_mgr st)) tls c]) /\
         (alp <> Some "h2" ->
          exists c, filter is_construct delta =
                    [EvH1Create (obj (st_mgr st)) tls false c])).
Proof.
  intros W E host port req st. split.
  - intros cr name two.
    unfold vlc_https_connect, bind, call, ret.
    match goal with
    | |- context [vlc_tls_SocketOpenTLS E ?a ?b ?c ?d ?e ?w] =>
        destruct (vlc_tls_SocketOpenTLS E a b c d e w) as [[[tls alp]|] w']
    end; simpl; do 4 eexists;
      (split; [reflexivity|]);
      (split; [destruct two; reflexivity|]);
      intros tls' alp' H; inversion H; subst.
    split; intro Ha.
    + apply alp_is_h2_spec in Ha. now rewrite Ha.
    + destruct (alp_is_h2 alp') eqn:Hb; [|reflexivity].
      apply alp_is_h2_spec in Hb. contradiction.
  - use_request st;
      do 3 eexists; (split; [reflexivity|]); (split; [trace_eq|]);
      intros ? ? ? ? ? ? ? Hin; simpl in Hin;
      repeat match goal with
             | H : _ \/ _ |- _ => destruct H
             | H : False |- _ => destruct H
             end;
      try discriminate;
      match goal with
      | H : EvSocketOpenTLS _ _ _ _ _ _ = _ |- _ => inversion H; subst
      end;
      (split; [reflexivity|]);
      split; intro Ha;
      try (eexists; reflexivity);
      exfalso;
      repeat match goal with
             | H : alp_is_h2 _ = true |- _ => apply alp_is_h2_spec in H
             | H : alp_is_h2 ?a = false, H' : ?a = _ |- _ =>
                 rewrite H' in H; discriminate
             end;
      congruence.
Qed.

Lemma alpn_selects_version_witness :
  exists r st' delta,
    vlc_https_request Script.direct "example.test" 0 5
      (Script.fresh [true; true; true; true; true]) = Ok r st' /\
    st_trace st' = delta /\
    In (EvSocketOpenTLS Script.the_creds "example.test" 443 "https"
          ["h2"; "http/1.1"] (Some (20, Some "h2"))) delta /\
    exists c, filter is_construct delta = [EvH2Create 1 20 c].
Proof.
  destruct (proj2 (alpn_selects_version _ Script.direct "example.test" 0%N 5
                     (Script.fresh [true; true; true; true; true])))
    as (r & st' & delta & Hrun & Htr & Himp).
  exists r, st', delta.
  split; [exact Hrun|]. split; [exact Htr|].
  assert (Hin : In (EvSocketOpenTLS Script.the_creds "example.test" 443
                      "https" ["h2"; "http/1.1"] (Some (20, Some "h2")))
                   delta)
    by (concrete_run Hrun Htr; simpl; tauto).
  split; [exact Hin|].
  exact (proj1 (proj2 (Himp _ _ _ _ _ _ _ Hin)) eq_refl).
Defined.

(** ** One request *)

(** C2. A request always returns, and among the events it adds to the trace
    there is at most one dial attempt and there are at most two attempts to
    open a stream; when a stream fails after the dial the request answers
    nothing. *)
Theorem bounded_retry :
  forall (W : Type) (E : Collab W) (https : bool) (host : string) (port : N)
         (req : vlc_http_msg) (st : state W),
    exists r st' delta,
      vlc_http_mgr_request E https host port req st = Ok r st' /\
      st_trace st' = st_trace st ++ delta /\
      dial_attempts delta <= 1 /\
      stream_open_attempts delta <= 2 /\
      (stream_failed_after_dial delta = true -> r = None).
Proof.
  intros W E https host port req st.
  destruct https; use_request st;
    do 3 eexists; (split; [reflexivity|]); (split; [trace_eq|]);
    (split; [cbn; lia|]); (split; [cbn; lia|]);
    intro Hf; first [reflexivity | simpl in Hf; discriminate].
Qed.

Lemma bounded_retry_witness :
  exists r st' delta,
    vlc_http_mgr_request Script.direct false "example.test" 0 5
      (Script.fresh [true; true; false]) = Ok r st' /\
    st_trace st' = delta /\
    stream_failed_after_dial delta = true /\
    r = None.
Proof.
  destruct (bounded_retry _ Script.direct false "example.test" 0%N 5
              (Script.fresh [true; true; false]))
    as (r & st' & delta & Hrun & Htr & _ & _ & Himp).
  exists r, st', delta.
  split; [exact Hrun|]. split; [exact Htr|].
  assert (Hf : stream_failed_after_dial delta = true)
    by (concrete_run Hrun Htr; reflexivity).
  split; [exact Hf | exact (Himp Hf)].
Defined.

(** C7. When, during a request, a connection constructor is called on a
    transport and answers nothing, the request answers nothing, its last
    action is to close that transport, it stores no connection in the slot
    and the slot is empty afterwards. *)
Theorem construction_failure_closes_transport :
  forall (W : Type) (E : Collab W) (https : bool) (host : string) (port : N)
         (req : vlc_http_msg) (st : state W),
    exists r st' delta,
      vlc_http_mgr_request E https host port req st = Ok r st' /\
      st_trace st' = st_trace st ++ delta /\
      forall tls,
        (exists o, In (EvH2Create o tls None) delta) \/
        (exists o proxied, In (EvH1Create o tls proxied None) delta) ->
        r = None /\
        hd_error (rev delta) = Some (EvTlsClose tls) /\
        existsb is_install delta = false /\
        conn (st_mgr st') = None.
Proof.
  intros W E https host port req st.
  destruct https; use_request st;
    do 3 eexists; (split; [reflexivity|]); (split; [trace_eq|]);
    intros tls' [[o' Hin]|[o' [b' Hin]]]; simpl in Hin;
    repeat match goal with
           | H : _ \/ _ |- _ => destruct H
           | H : False |- _ => destruct H
           end;
    try discriminate;
    match goal with
    | H : _ = _ :> event |- _ => inversion H; subst
    end;
    repeat split; reflexivity.
Qed.

Lemma construction_failure_closes_transport_witness :
  exists r st' delta,
    vlc_http_mgr_request Script.direct false "example.test" 0 5
      (Script.fresh [true; false]) = Ok r st' /\
    st_trace st' = delta /\
    In (EvH1Create 1 22 false None) delta /\
    r = None /\
    hd_error (rev delta) = Some (EvTlsClose 22) /\
    existsb is_install delta = false /\
    conn (st_mgr st') = None.
Proof.
  destruct (construction_failure_closes_transport _ Script.direct false
              "example.test" 0%N 5 (Script.fresh [true; false]))
    as (r & st' & delta & Hrun & Htr & Himp).
  exists r, st', delta.
  split; [exact Hrun|]. split; [exact Htr|].
  assert (Hin : In (EvH1Create 1 22 false None) delta)
    by (concrete_run Hrun Htr; simpl; tauto).
  split; [exact Hin|].
  apply Himp. right. exists 1, false. exact Hin.
Defined.

(** C10. When a request answers nothing, the slot is afterwards either what
    it was before or empty, and it is empty whenever a stream failed during
    the request. *)
Theorem failure_leaves_no_dead_connection :
  forall (W : Type) (E : Collab W) (https : bool) (host : string) (port : N)
         (req : vlc_http_msg) (st : state W),
    exists r st' delta,
      vlc_http_mgr_request E https host port req st = Ok r st' /\
      st_trace st' = st_trace st ++ delta /\
      (r = None ->
       (conn (st_mgr st') = conn (st_mgr st) \/ conn (st_mgr st') = None) /\
       (existsb is_stream_failure delta = true -> conn (st_mgr st') = None)).
Proof.
  intros W E https host port req st.
  destruct https; use_request st;
    do 3 eexists; (split; [reflexivity|]); (split; [trace_eq|]);
    intro Hr; try discriminate;
    (split; [first [left; reflexivity | right; reflexivity]|]);
    intro Hf; first [reflexivity | simpl in Hf; discriminate].
Qed.

Lemma failure_leaves_no_dead_connection_witness :
  exists r st' delta,
    vlc_http_mgr_request Script.direct false "example.test" 0 5
      (Script.holding None [false; false]) = Ok r st' /\
    st_trace st' = delta /\
    r = None /\
    existsb is_stream_failure delta = true /\
    conn (st_mgr st') = None.
Proof.
  destruct (failure_leaves_no_dead_connection _ Script.direct false
              "example.test" 0%N 5 (Script.holding None [false; false]))
    as (r & st' & delta & Hrun & Htr & Himp).
  exists r, st', delta.
  split; [exact Hrun|]. split; [exact Htr|].
  assert (Hr : r = None /\ existsb is_stream_failure delta = true)
    by (concrete_run Hrun Htr; split; reflexivity).
  destruct Hr as [Hr Hf].
  split; [exact Hr|]. split; [exact Hf|].
  exact (proj2 (Himp Hr) Hf).
Defined.

(** ** Between create and destroy *)

Lemma count_app (p : event -> bool) (a b : list event) :
  count p (a ++ b) = (count p a + count p b)%nat.
Proof. unfold count. now rewrite filter_app, length_app. Qed.

Lemma live_app (a b : list event) : live (a ++ b) = (live a + live b)%Z.
Proof. induction a as [|e a IH]; simpl; [reflexivity | rewrite IH; lia]. Qed.

Lemma held_ok_app (a b : list event) :
  forall n, held_ok n (a ++ b) = held_ok n a && held_ok (n + live a)%Z b.
Proof.
  induction a as [|e a IH]; intro n; simpl.
  - now rewrite Z.add_0_r.
  - rewrite IH, Z.add_assoc, andb_assoc. reflexivity.
Qed.

Lemma held_ok_bound (tr : list event) :
  forall n, held_ok n tr = true -> tr = [] \/ (0 <= n + live tr <= 1)%Z.
Proof.
  induction tr as [|e tr IH]; intros n H; [now left | right].
  simpl in H. apply andb_prop in H as [Hb Hrest].
  apply andb_prop in Hb as [Hlo Hhi].
  apply Z.leb_le in Hlo, Hhi. simpl.
  destruct (IH _ Hrest) as [-> | Hin]; simpl; lia.
Qed.

Lemma held_ok_prefix (tr : list event) :
  held_ok 0%Z tr = true ->
  forall pre post, tr = pre ++ post -> (0 <= live pre <= 1)%Z.
Proof.
  intros H pre post ->. rewrite held_ok_app in H.
  apply andb_prop in H as [H _].
  destruct (held_ok_bound _ _ H) as [-> | Hb]; simpl in *; lia.
Qed.

Lemma stores_ok_tail (e : event) (tr : list event) :
  stores_ok (e :: tr) = true -> stores_ok tr = true.
Proof.
  destruct e; simpl; auto.
  destruct old; auto.
  destruct new; [discriminate|].
  destruct tr as [|[] tr]; try discriminate.
  intro H. now apply andb_prop in H as [_ H].
Qed.

Lemma stores_ok_app (a b : list event) :
  stores_ok a = true -> stores_ok b = true -> stores_ok (a ++ b) = true.
Proof.
  intros Ha Hb. induction a as [|e a IH]; [exact Hb|].
  pose proof (stores_ok_tail _ _ Ha) as Ht. specialize (IH Ht).
  destruct e; simpl in *; auto.
  destruct old; auto.
  destruct new; [discriminate|].
  destruct a as [|[] a]; try discriminate.
  simpl in *. apply andb_prop in Ha as [Hc _].
  rewrite Hc. exact IH.
Qed.

Lemma stores_ok_overwrite (tr : list event) :
  stores_ok tr = true ->
  forall pre c new post,
    tr = pre ++ EvSetConn (Some c) new :: post ->
    new = None /\ exists post', post = EvConnRelease c :: post'.
Proof.
  intros H pre. revert tr H.
  induction pre as [|e pre IH]; intros tr H c new post ->.
  - simpl in H. destruct new; [discriminate|].
    destruct post as [|[] post]; try discriminate.
    apply andb_prop in H as [Hc _]. apply Nat.eqb_eq in Hc. subst.
    split; [reflexivity | eexists; reflexivity].
  - apply stores_ok_tail in H. eapply IH; [exact H | reflexivity].
Qed.

Lemma stores_ok_install (tr : list event) :
  stores_ok tr = true ->
  forall old c, In (EvSetConn old (Some c)) tr -> old = None.
Proof.
  intros H old c Hin. apply in_split in Hin as (pre & post & ->).
  destruct old as [c'|]; [|reflexivity].
  destruct (stores_ok_overwrite _ H pre c' (Some c) post eq_refl) as [Hn _].
  discriminate.
Qed.

(** Closes one field of [inv] after a request was executed: the trace is the
    old one with events appended. *)
Ltac new_trace :=
  simpl; rewrite <- ?app_assoc; simpl;
  rewrite ?held_ok_app, ?live_app, ?count_app.

Lemma request_inv :
  forall (W : Type) (E : Collab W) (https : bool) (host : string) (port : N)
         (req : vlc_http_msg) (st : state W),
    inv st ->
    exists r st',
      vlc_http_mgr_request E https host port req st = Ok r st' /\ inv st'.
Proof.
  intros W E https host port req st [Hh Hl Hs Hc Hd].
  destruct https; use_request st; simpl in Hh, Hl, Hs, Hc, Hd;
    do 2 eexists; (split; [reflexivity|]);
    constructor; new_trace;
    rewrite ?Hh, ?Hl, ?Hc, ?Hd; simpl; try reflexivity; try assumption;
    apply stores_ok_app; simpl; rewrite ?Nat.eqb_refl; auto.
Qed.

Lemma run_ops_inv :
  forall (W : Type) (E : Collab W) (ops : list op) (st : state W),
    inv st ->
    exists st', run_ops E ops st = Ok tt st' /\ inv st'.
Proof.
  intros W E ops. induction ops as [|o ops IH]; intros st Hinv.
  - exists st. split; [reflexivity | assumption].
  - simpl. unfold bind at 1.
    destruct o as [https host port m|]; simpl.
    + destruct (request_inv W E https host port m st Hinv)
        as (r & st1 & Hrun & Hinv1).
      unfold bind at 1. rewrite Hrun. unfold ret. apply IH, Hinv1.
    + unfold vlc_http_mgr_get_jar, bind, get_mgr, ret. apply IH, Hinv.
Qed.

Lemma create_inv :
  forall (W : Type) (E : Collab W) o j h2c (w : W) (st0 : state W),
    vlc_http_mgr_create E o j h2c w = Some st0 ->
    inv st0 /\ st_trace st0 = [] /\
    creds (st_mgr st0) = None /\ conn (st_mgr st0) = None.
Proof.
  intros W E o j h2c w st0. unfold vlc_http_mgr_create.
  destruct (malloc_ok E w) as [[|] w']; [|discriminate].
  intro H. inversion H; subst. repeat split; reflexivity.
Qed.

Lemma destroy_inv :
  forall (W : Type) (E : Collab W) (st1 : state W),
    inv st1 ->
    exists st2 delta,
      vlc_http_mgr_destroy E st1 = Ok tt st2 /\
      st_trace st2 = st_trace st1 ++ delta /\
      held_ok 0%Z (st_trace st2) = true /\
      live (st_trace st2) = 0%Z /\
      stores_ok (st_trace st2) = true /\
      count is_creds_deleted delta = occ_nat (creds (st_mgr st1)) /\
      count is_creds_attempt delta = 0%nat /\
      (forall cr, creds (st_mgr st1) = Some cr ->
                  hd_error (rev delta) = Some (EvTlsDelete cr)).
Proof.
  intros W E st1 [Hh Hl Hs Hc Hd].
  use_request st1; simpl in Hh, Hl, Hs, Hc, Hd;
    do 2 eexists; (split; [reflexivity|]); (split; [trace_eq|]);
    (split; [new_trace; rewrite ?Hh, ?Hl; simpl; auto|]);
    (split; [new_trace; rewrite ?Hl; simpl; auto|]);
    (split; [flat; try assumption;
             apply stores_ok_app; simpl; rewrite ?Nat.eqb_refl; auto|]);
    (split; [reflexivity|]); (split; [reflexivity|]);
    intros cr' Hcr; inversion Hcr; subst; reflexivity.
Qed.

(** C5. From a created manager, any sequence of operations runs to its end
    and so does the destroy that follows.  Along the whole trace at most one
    connection exists at any point, and between operations the connections
    in existence are exactly the content of the slot.  A connection is only
    ever stored into an empty slot, and an occupied slot is only ever
    overwritten by [NULL], the connection it held being released at once.
    After destroy no connection is left. *)
Theorem cache_exclusive :
  forall (W : Type) (E : Collab W) (o : vlc_object_t)
         (j : option vlc_http_cookie_jar_t) (h2c : bool) (w : W)
         (st0 : state W) (ops : list op),
    vlc_http_mgr_create E o j h2c w = Some st0 ->
    exists st1 st2,
      run_ops E ops st0 = Ok tt st1 /\
      vlc_http_mgr_destroy E st1 = Ok tt st2 /\
      live (st_trace st1) = occ (conn (st_mgr st1)) /\
      (forall pre post,
         st_trace st2 = pre ++ post -> (0 <= live pre <= 1)%Z) /\
      (forall old c,
         In (EvSetConn old (Some c)) (st_trace st2) -> old = None) /\
      (forall pre c new post,
         st_trace st2 = pre ++ EvSetConn (Some c) new :: post ->
         new = None /\ exists post', post = EvConnRelease c :: post') /\
      live (st_trace st2) = 0%Z.
Proof.
  intros W E o j h2c w st0 ops Hcreate.
  destruct (create_inv W E o j h2c w st0 Hcreate) as (Hinv0 & _).
  destruct (run_ops_inv W E ops st0 Hinv0) as (st1 & Hrun & Hinv1).
  destruct (destroy_inv W E st1 Hinv1)
    as (st2 & delta & Hdes & _ & Hheld & Hlive & Hstores & _).
  exists st1, st2. repeat split; try assumption.
  - apply Hinv1.
  - eapply held_ok_prefix; eassumption.
  - eapply held_ok_prefix; eassumption.
  - eapply stores_ok_install; eassumption.
  - eapply stores_ok_overwrite; eassumption.
  - eapply stores_ok_overwrite; eassumption.
Qed.

Lemma cache_exclusive_witness :
  let script := [true; true; true; true; false; true; true; true; true] in
  let ops := [OpRequest false "example.test" 0 5; OpGetJar;
              OpRequest false "example.test" 0 6] in
  let st0 := Script.fresh script in
  vlc_http_mgr_create Script.direct 1 None false script = Some st0 /\
  exists st1 st2,
    run_ops Script.direct ops st0 = Ok tt st1 /\
    vlc_http_mgr_destroy Script.direct st1 = Ok tt st2 /\
    live (st_trace st1) = occ (conn (st_mgr st1)) /\
    (forall pre post,
       st_trace st2 = pre ++ post -> (0 <= live pre <= 1)%Z) /\
    (forall old c,
       In (EvSetConn old (Some c)) (st_trace st2) -> old = None) /\
    (forall pre c new post,
       st_trace st2 = pre ++ EvSetConn (Some c) new :: post ->
       new = None /\ exists post', post = EvConnRelease c :: post') /\
    live (st_trace st2) = 0%Z.
Proof.
  intros script ops st0. split; [reflexivity|].
  exact (cache_exclusive _ Script.direct 1 None false script st0 ops eq_refl).
Defined.

(** A run in which the cached connection goes stale between two requests:
    the second request releases it, dials again and installs the new
    connection in the emptied slot. *)
Example stale_then_redial :
  run_ops Script.direct
    [OpRequest false "example.test" 0 5; OpRequest false "example.test" 0 6]
    (Script.fresh [true; true; true; true; false; true; true; true; true]) =
  Ok tt
    (mk_state (mk_mgr 1 None None (Some 33) false) []
       [EvGetProxyUrl "http://example.test" None;
        EvSocketOpenTCP 1 "example.test" 80 (Some 22);
        EvH1Create 1 22 false (Some 33);
        EvSetConn None (Some 33);
        EvStreamOpen 33 5 (Some 133);
        EvGetInitial 133 (Some 233);
        EvStreamOpen 33 6 None;
        EvSetConn (Some 33) None;
        EvConnRelease 33;
        EvGetProxyUrl "http://example.test" None;
        EvSocketOpenTCP 1 "example.test" 80 (Some 22);
        EvH1Create 1 22 false (Some 33);
        EvSetConn None (Some 33);
        EvStreamOpen 33 6 (Some 133);
        EvGetInitial 133 (Some 233)]).
Proof. reflexivity. Qed.

(** ** The TLS credentials *)

Lemma request_creds :
  forall (W : Type) (E : Collab W) (https : bool) (host : string) (port : N)
         (req : vlc_http_msg) (st : state W),
    exists r st' delta,
      vlc_http_mgr_request E https host port req st = Ok r st' /\
      st_trace st' = st_trace st ++ delta /\
      (count is_creds_attempt delta <= 1)%nat /\
      (https = false \/ creds (st_mgr st) <> None ->
       count is_creds_attempt delta = 0%nat /\
       creds (st_mgr st') = creds (st_mgr st)) /\
      (https = true ->
       creds (st_mgr st) = None -> conn (st_mgr st) = None ->
       exists a,
         hd_error delta = Some (EvClientCreate (obj (st_mgr st)) a) /\
         creds (st_mgr st') = a).
Proof.
  intros W E https host port req st.
  destruct https; use_request st;
    do 3 eexists; (split; [reflexivity|]); (split; [trace_eq|]);
    (split; [cbn; lia|]);
    (split;
     [intros [Hp | Hp]; [try discriminate | try (now elim Hp)];
      split; reflexivity
     |intros Hh Hc Hs; try discriminate; eexists; split; reflexivity]).
Qed.

(** C6. The credentials over the life of a manager.
    - A created manager has no credentials and has asked for none.  After
      any sequence of operations the credentials obtained so far are the one
      in the [creds] field, if any (so at most one), and none was deleted;
      destroy asks for none and deletes exactly the ones obtained, as its
      last action.
    - A request asks for credentials at most once, and not at all when it is
      a plain HTTP request or when the manager has credentials already; the
      [creds] field is then unchanged.  An HTTPS request on a manager with
      neither credentials nor connection starts by asking for them and
      stores the answer in [creds].
    - When an HTTPS request on a manager with neither credentials nor
      connection cannot obtain credentials, it answers nothing and leaves the
      manager as it was, [creds] still [NULL]; a plain HTTP request that
      follows, dialing directly, is served when its collaborators succeed. *)
Theorem credentials_lifecycle :
  forall (W : Type) (E : Collab W),
    (forall o j h2c (w : W) st0 ops,
       vlc_http_mgr_create E o j h2c w = Some st0 ->
       creds (st_mgr st0) = None /\ st_trace st0 = [] /\
       exists st1 st2 delta,
         run_ops E ops st0 = Ok tt st1 /\
         vlc_http_mgr_destroy E st1 = Ok tt st2 /\
         st_trace st2 = st_trace st1 ++ delta /\
         count is_creds_created (st_trace st1) =
           occ_nat (creds (st_mgr st1)) /\
         (count is_creds_created (st_trace st1) <= 1)%nat /\
         count is_creds_deleted (st_trace st1) = 0%nat /\
         count is_creds_attempt delta = 0%nat /\
         count is_creds_deleted delta =
           count is_creds_created (st_trace st1) /\
         (forall cr, creds (st_mgr st1) = Some cr ->
                     hd_error (rev delta) = Some (EvTlsDelete cr))) /\
    (forall https host port req (st : state W),
       exists r st' delta,
         vlc_http_mgr_request E https host port req st = Ok r st' /\
         st_trace st' = st_trace st ++ delta /\
         (count is_creds_attempt delta <= 1)%nat /\
         (https = false \/ creds (st_mgr st) <> None ->
          count is_creds_attempt delta = 0%nat /\
          creds (st_mgr st') = creds (st_mgr st)) /\
         (https = true ->
          creds (st_mgr st) = None -> conn (st_mgr st) = None ->
          exists a,
            hd_error delta = Some (EvClientCreate (obj (st_mgr st)) a) /\
            creds (st_mgr st') = a)) /\
    (forall host port req (st : state W) w1,
       creds (st_mgr st) = None ->
       conn (st_mgr st) = None ->
       vlc_tls_ClientCreate E (obj (st_mgr st)) (st_world st) = (None, w1) ->
       let st1 :=
         mk_state (st_mgr st) w1
           (st_trace st ++ [EvClientCreate (obj (st_mgr st)) None]) in
       vlc_http_mgr_request E true host port req st = Ok None st1 /\
       forall host' port' req' w2 w3 w4 w5 w6 w7 tls c s m,
         asprintf_ok E w1 = (true, w2) ->
         vlc_getProxyUrl E (proxy_query_url host' port' false) w2 =
           (None, w3) ->
         vlc_tls_SocketOpenTCP E (obj (st_mgr st)) host'
           (match port' with 0%N => 80%N | _ => port' end) w3 =
           (Some tls, w4) ->
         (if use_h2c (st_mgr st)
          then vlc_h2_conn_create E (obj (st_mgr st)) tls w4
          else vlc_h1_conn_create E (obj (st_mgr st)) tls false w4) =
           (Some c, w5) ->
         vlc_http_stream_open E c req' w5 = (Some s, w6) ->
         vlc_http_msg_get_initial E s w6 = (Some m, w7) ->
         exists st2,
           vlc_http_mgr_request E false host' port' req' st1 =
             Ok (Some m) st2 /\
           conn (st_mgr st2) = Some c /\ creds (st_mgr st2) = None).
Proof.
  intros W E. split; [|split].
  - intros o j h2c w st0 ops Hcreate.
    destruct (create_inv W E o j h2c w st0 Hcreate)
      as (Hinv0 & Htr & Hcr & _).
    destruct (run_ops_inv W E ops st0 Hinv0) as (st1 & Hrun & Hinv1).
    destruct (destroy_inv W E st1 Hinv1)
      as (st2 & delta & Hdes & Hdelta & _ & _ & _ & Hdel & Hatt & Hlast).
    split; [assumption|]. split; [assumption|].
    exists st1, st2, delta.
    pose proof (inv_created _ Hinv1) as Hc.
    pose proof (inv_deleted _ Hinv1) as Hd.
    repeat (split; [assumption|]).
    split; [rewrite Hc; destruct (creds (st_mgr st1)); simpl; lia|].
    repeat (split; [assumption|]).
    split; [congruence | assumption].
  - apply request_creds.
  - intros host port req [[o cr j slot h2c] w tr] w1; simpl.
    intros -> -> Hfail. split.
    + unfold_mgr; simpl. rewrite Hfail. reflexivity.
    + intros host' port' req' w2 w3 w4 w5 w6 w7 tls c s m
             Has Hpx Htcp Hcon Hso Hgi.
      unfold_mgr; simpl. rewrite Has; simpl. rewrite Hpx; simpl.
      replace (if N.eqb port' 0 then 80%N else port')
        with (match port' with 0%N => 80%N | _ => port' end)
        by (destruct port'; reflexivity).
      rewrite Htcp; simpl.
      destruct h2c; simpl in *; rewrite Hcon; simpl;
        rewrite Hso; simpl; rewrite Hgi; simpl;
        eexists; repeat split; reflexivity.
Qed.

Lemma credentials_lifecycle_witness :
  let st1 :=
    mk_state (mk_mgr 1 None None None false) [true; true; true; true]
      [EvClientCreate 1 None] in
  vlc_http_mgr_request Script.direct true "example.test" 0 5
    (Script.fresh [false; true; true; true; true]) = Ok None st1 /\
  exists st2,
    vlc_http_mgr_request Script.direct false "example.test" 0 6 st1 =
      Ok (Some 233) st2 /\
    conn (st_mgr st2) = Some 33 /\ creds (st_mgr st2) = None.
Proof.
  intro st1.
  pose proof (proj2 (proj2 (credentials_lifecycle _ Script.direct))
                "example.test" 0%N 5
                (Script.fresh [false; true; true; true; true])
                [true; true; true; true] eq_refl eq_refl eq_refl) as H.
  cbv zeta in H. destruct H as [H1 H2]. split; [exact H1|].
  exact (H2 "example.test" 0%N 6 [true; true; true; true]
            [true; true; true; true] [true; true; true] [true; true] [true]
            [] 22 33 133 233
            eq_refl eq_refl eq_refl eq_refl eq_refl eq_refl).
Defined.

(** ** More on the dialer *)

(** X1. The URL the proxy is asked about carries the scheme of the target:
    it starts with [https://] for a secure target and with [http://] for a
    plain one, so that the two lookups never ask about the same URL. *)
Theorem proxy_query_url_scheme :
  forall (host host' : string) (port port' : N),
    prefix "https://" (proxy_query_url host port true) = true /\
    prefix "http://" (proxy_query_url host port false) = true /\
    proxy_query_url host port true <> proxy_query_url host' port' false.
Proof.
  intros host host' port port'. unfold proxy_query_url.
  repeat split.
  - destruct (strchr host ":"), (N.eqb port 0); cbn;
      try reflexivity; destruct host; reflexivity.
  - destruct (strchr host ":"), (N.eqb port 0); cbn;
      try reflexivity; destruct host; reflexivity.
  - destruct (strchr host ":"), (N.eqb port 0),
      (strchr host' ":"), (N.eqb port' 0); simpl; intro H; inversion H.
Qed.

(** X2. The proxy lookup of the dialer leaves the manager alone.  When the
    query URL cannot be built it answers no proxy without asking; otherwise
    it asks once, about the URL of the target, and hands the answer on. *)
Theorem proxy_find_spec :
  forall (W : Type) (E : Collab W) (host : string) (port : N) (secure : bool)
         (st : state W),
    exists r st',
      vlc_http_proxy_find E host port secure st = Ok r st' /\
      st_mgr st' = st_mgr st /\
      (fst (asprintf_ok E (st_world st)) = false ->
       r = None /\ st_trace st' = st_trace st) /\
      (fst (asprintf_ok E (st_world st)) = true ->
       st_trace st' =
       st_trace st ++ [EvGetProxyUrl (proxy_query_url host port secure) r]).
Proof.
  intros W E host port secure [mgr w tr].
  unfold vlc_http_proxy_find, bind, call, call_quiet, ret; simpl.
  destruct (asprintf_ok E w) as [[|] w1]; simpl.
  - destruct (vlc_getProxyUrl E (proxy_query_url host port secure) w1)
      as [r w2]; simpl.
    do 2 eexists. split; [reflexivity|]. split; [reflexivity|].
    split; [discriminate | reflexivity].
  - do 2 eexists. split; [reflexivity|]. split; [reflexivity|].
    split; [intros _; split; reflexivity | discriminate].
Qed.

Lemma proxy_find_spec_witness :
  exists r st',
    vlc_http_proxy_find (Script.collab (Some "http://proxy.test:3128") None)
      "::1" 8080 true (Script.fresh []) = Ok r st' /\
    st_trace st' = [EvGetProxyUrl "https://[::1]:8080" r].
Proof.
  destruct (proxy_find_spec _ (Script.collab (Some "http://proxy.test:3128")
                                 None)
              "::1" 8080%N true (Script.fresh []))
    as (r & st' & Hrun & _ & _ & Hlog).
  exists r, st'. split; [exact Hrun | exact (Hlog eq_refl)].
Defined.



(** X4. The plaintext dial leaves the manager alone, makes at most one dial
    attempt and never a TLS one; its proxied flag says whether the lookup
    found a proxy, whether or not a transport was opened; and the transport
    it answers is the one its dial attempt opened, if any. *)
Theorem http_dial_spec :
  forall (W : Type) (E : Collab W) (o : vlc_object_t) (host : string)
         (port : N) (st : state W),
    exists tls proxied st' delta,
      vlc_http_connect_i11e E o host port st = Ok (tls, proxied) st' /\
      st_trace st' = st_trace st ++ delta /\
      st_mgr st' = st_mgr st /\
      (dial_attempts delta <= 1)%nat /\
      count is_tls_dial delta = 0%nat /\
      proxied = existsb is_proxy_found delta /\
      tls = match find is_dial delta with
            | Some e => dialed e
            | None => None
            end.
Proof.
  intros W E o host port [mgr w tr].
  exec; do 4 eexists;
    (split; [reflexivity|]); (split; [trace_eq|]);
    (split; [reflexivity|]); (split; [cbn; lia|]);
    (split; [reflexivity|]); (split; [reflexivity|]);
    simpl;
    lazymatch goal with
    | |- _ = match ?x with _ => _ end => destruct x; reflexivity
    | |- _ => reflexivity
    end.
Qed.

(** X5. The TLS dial leaves the manager alone and makes exactly one dial
    attempt, a TLS one.  When the lookup found a proxy the attempt is the
    tunnel through that proxy, for the host and the port as given (0 is not
    replaced), with the parent object of the credentials and the flag as
    given, and the tunnel's answer is handed on.  When a direct dial fails
    the flag keeps the value it came with. *)
Theorem https_dial_spec :
  forall (W : Type) (E : Collab W) (cr : vlc_tls_creds_t) (host : string)
         (port : N) (two : bool) (st : state W),
    exists tls two' st' delta,
      vlc_https_connect_i11e E cr host port two st = Ok (tls, two') st' /\
      st_trace st' = st_trace st ++ delta /\
      st_mgr st' = st_mgr st /\
      dial_attempts delta = 1%nat /\
      count is_tls_dial delta = 1%nat /\
      (forall px,
         In (EvGetProxyUrl (proxy_query_url host port true) (Some px)) delta ->
         In (EvConnectProxy (creds_parent cr) cr host port two px (tls, two'))
            delta) /\
      (existsb is_proxy_found delta = false -> tls = None -> two' = two).
Proof.
  intros W E cr host port two [mgr w tr].
  exec;
    repeat match goal with
           | p : (option vlc_tls_t * bool)%type |- _ => destruct p
           end;
    do 4 eexists;
    (split; [reflexivity|]); (split; [trace_eq|]);
    (split; [reflexivity|]); (split; [reflexivity|]);
    (split; [reflexivity|]);
    (split;
     [intros px Hin; simpl in Hin;
      repeat match goal with
             | H : _ \/ _ |- _ => destruct H
             | H : False |- _ => destruct H
             end;
      try discriminate;
      match goal with
      | H : _ = _ :> event |- _ => inversion H; subst
      end; simpl; tauto
     |intros Hp Ht; first [discriminate | reflexivity]]).
Qed.

Lemma https_dial_spec_witness :
  exists tls two' st' delta,
    vlc_https_connect_i11e (Script.collab (Some "http://proxy.test:3128") None)
      Script.the_creds "origin.test" 0 true (Script.fresh [true]) =
      Ok (tls, two') st' /\
    st_trace st' = delta /\
    In (EvConnectProxy 1 Script.the_creds "origin.test" 0 true
          "http://proxy.test:3128" (tls, two')) delta.
Proof.
  destruct (https_dial_spec _ (Script.collab (Some "http://proxy.test:3128")
                                 None)
              Script.the_creds "origin.test" 0%N true (Script.fresh [true]))
    as (tls & two' & st' & delta & Hrun & Htr & _ & _ & _ & Hpx & _).
  exists tls, two', st', delta.
  split; [exact Hrun|]. split; [exact Htr|].
  apply Hpx.
  vm_compute in Hrun. inversion Hrun; subst; clear Hrun.
  simpl in Htr. subst delta. simpl. tauto.
Defined.

(** ** More on one request *)

Lemma request_effects :
  forall (W : Type) (E : Collab W) (https : bool) (host : string) (port : N)
         (req : vlc_http_msg) (st : state W),
    exists r st' delta,
      vlc_http_mgr_request E https host port req st = Ok r st' /\
      st_trace st' = st_trace st ++ delta /\
      (obj (st_mgr st') = obj (st_mgr st) /\
       jar (st_mgr st') = jar (st_mgr st) /\
       use_h2c (st_mgr st') = use_h2c (st_mgr st)) /\
      (forall m, r = Some m ->
         exists c s rest,
           conn (st_mgr st') = Some c /\
           rev delta =
           EvGetInitial s (Some m) :: EvStreamOpen c req (Some s) :: rest) /\
      (count is_release delta = count is_stream_failure delta /\
       (count is_release delta <= 2)%nat) /\
      (count is_dial_success delta = count is_construct delta /\
       count is_tls_close delta = count is_construct_failure delta) /\
      (existsb is_dial_failure delta = true ->
       r = None /\ count is_construct delta = 0%nat /\
       conn (st_mgr st') = None) /\
      (r = None -> conn (st_mgr st) = None -> conn (st_mgr st') = None).
Proof.
  intros W E https host port req st.
  destruct https; use_request st;
    do 3 eexists; (split; [reflexivity|]); (split; [trace_eq|]);
    (split; [repeat split; reflexivity|]);
    (split;
     [intros m' Hm; try discriminate; inversion Hm; subst;
      do 3 eexists; split; reflexivity|]);
    (split; [split; [reflexivity | cbn; lia]|]);
    (split; [split; reflexivity|]);
    (split;
     [intro Hf; first [discriminate Hf | repeat split; reflexivity]|]);
    intros Hr Hc; first [discriminate | reflexivity].
Qed.

Lemma dispatch_order_facts :
  forall (W : Type) (E : Collab W) (https : bool) (host : string) (port : N)
         (req : vlc_http_msg) (st : state W),
    exists r st' delta,
      vlc_http_mgr_request E https host port req st = Ok r st' /\
      st_trace st' = st_trace st ++ delta /\
      (ascending (map phase (upto is_dialing delta)) = true /\
       ascending (map phase (from is_dialing delta)) = true /\
       count is_construct (upto is_dialing delta) = 0%nat /\
       existsb is_install (upto is_dialing delta) = false) /\
      (forall c,
         hd_error (map constructed (from is_construct delta)) =
           Some (Some c) ->
         exists x rest,
           tl (from is_construct delta) =
           EvSetConn None (Some c) :: EvStreamOpen c req x :: rest) /\
      (forall c,
         conn (st_mgr st) = Some c ->
         (delta = [] \/ exists x, hd_error delta = Some (EvStreamOpen c req x)) /\
         (existsb is_dialing delta = true ->
          existsb is_stream_failure (upto is_dialing delta) = true /\
          In (EvConnRelease c) (upto is_dialing delta))) /\
      (conn (st_mgr st) = None ->
       count is_stream_open (upto is_dialing delta) = 0%nat) /\
      (count is_tls_dial delta =
       if https then dial_attempts delta else 0%nat) /\
      (forall e tls,
         find is_dial delta = Some e -> dialed e = Some tls ->
         exists c,
           filter is_construct delta =
           [if https
            then if negotiated_h2 e
                 then EvH2Create (obj (st_mgr st)) tls c
                 else EvH1Create (obj (st_mgr st)) tls false c
            else if use_h2c (st_mgr st)
                 then EvH2Create (obj (st_mgr st)) tls c
                 else EvH1Create (obj (st_mgr st)) tls
                        (existsb is_proxy_found delta) c]).
Proof.
  intros W E https host port req st.
  destruct https; use_request st;
    do 3 eexists; (split; [reflexivity|]); (split; [trace_eq|]);
    (split; [repeat split; reflexivity|]);
    (split;
     [intros c' Hc; simpl in Hc; try discriminate; inversion Hc; subst;
      do 2 eexists; reflexivity|]);
    (split;
     [intros c' Hc; inversion Hc; subst;
      (split;
       [first [left; reflexivity | right; eexists; reflexivity]
       |intro Hd; first [discriminate Hd | split; [reflexivity | simpl; tauto]]])
     |]);
    (split; [intro Hn; first [discriminate Hn | reflexivity]|]);
    (split; [reflexivity|]);
    intros e' tls' He Hd; simpl in He; try discriminate;
    inversion He; subst; simpl in Hd; try discriminate;
    inversion Hd; subst; simpl;
    repeat match goal with
           | H : ?x = _ |- context [?x] => rewrite H
           end;
    eexists; reflexivity.
Qed.

(** X6. A request served by the cached connection: with a connection in
    the slot and the scheme guard passed (credentials present for HTTPS,
    absent for plain HTTP), when the stream opens and its initial message
    comes, the request answers that message, makes no other call (no proxy
    lookup, no dial, no construction) and leaves the manager as it was. *)
Theorem reuse_hit_makes_no_dial :
  forall (W : Type) (E : Collab W) (https : bool) (host : string) (port : N)
         (req : vlc_http_msg) (st : state W) c s m w1 w2,
    conn (st_mgr st) = Some c ->
    (if https then creds (st_mgr st) <> None else creds (st_mgr st) = None) ->
    vlc_http_stream_open E c req (st_world st) = (Some s, w1) ->
    vlc_http_msg_get_initial E s w1 = (Some m, w2) ->
    vlc_http_mgr_request E https host port req st =
    Ok (Some m)
       (mk_state (st_mgr st) w2
          (st_trace st ++
           [EvStreamOpen c req (Some s); EvGetInitial s (Some m)])).
Proof.
  intros W E https host port req [[o cr j slot h2c] w tr] c s m w1 w2;
    simpl.
  intros -> Hcr Hso Hgi.
  destruct https, cr as [cr|]; try congruence;
    unfold_mgr; simpl; rewrite Hso; simpl; rewrite Hgi; simpl;
    rewrite <- app_assoc; reflexivity.
Qed.

Lemma reuse_hit_makes_no_dial_witness :
  vlc_http_mgr_request Script.direct true "example.test" 443 5
    (Script.holding (Some Script.the_creds) [true; true]) =
  Ok (Some 207)
     (mk_state (mk_mgr 1 (Some Script.the_creds) None (Some 7) false) []
        [EvStreamOpen 7 5 (Some 107); EvGetInitial 107 (Some 207)]).
Proof.
  apply (reuse_hit_makes_no_dial _ Script.direct true "example.test" 443%N 5
           (Script.holding (Some Script.the_creds) [true; true])
           7 107 207 [true] []);
    try reflexivity.
  discriminate.
Defined.

(** X7. Every answer is the initial message of a stream on the connection
    the slot holds afterwards: when a request answers a message, its last two
    calls are the opening of a stream with the request on that connection
    and the fetch of the message from that stream. *)
Theorem response_comes_from_cached_connection :
  forall (W : Type) (E : Collab W) (https : bool) (host : string) (port : N)
         (req : vlc_http_msg) (st : state W),
    exists r st' delta,
      vlc_http_mgr_request E https host port req st = Ok r st' /\
      st_trace st' = st_trace st ++ delta /\
      forall m, r = Some m ->
        exists c s rest,
          conn (st_mgr st') = Some c /\
          rev delta =
          EvGetInitial s (Some m) :: EvStreamOpen c req (Some s) :: rest.
Proof.
  intros W E https host port req st.
  destruct (request_effects W E https host port req st)
    as (r & st' & delta & Hrun & Htr & _ & H & _).
  exists r, st', delta. auto.
Qed.

Lemma response_comes_from_cached_connection_witness :
  exists r st' delta,
    vlc_http_mgr_request Script.direct false "example.test" 0 5
      (Script.fresh [true; true; true; true]) = Ok r st' /\
    st_trace st' = delta /\
    r = Some 233 /\
    exists c s rest,
      conn (st_mgr st') = Some c /\
      rev delta =
      EvGetInitial s (Some 233) :: EvStreamOpen c 5 (Some s) :: rest.
Proof.
  destruct (response_comes_from_cached_connection _ Script.direct false
              "example.test" 0%N 5 (Script.fresh [true; true; true; true]))
    as (r & st' & delta & Hrun & Htr & Himp).
  exists r, st', delta.
  split; [exact Hrun|]. split; [exact Htr|].
  assert (Hr : r = Some 233) by (concrete_run Hrun Htr; reflexivity).
  split; [exact Hr | exact (Himp _ Hr)].
Defined.

(** X8. A request releases a connection once for each stream that failed
    during the request (could not be opened, or gave no initial message), so
    never while a stream just succeeded, and at most twice. *)
Theorem release_only_on_stream_failure :
  forall (W : Type) (E : Collab W) (https : bool) (host : string) (port : N)
         (req : vlc_http_msg) (st : state W),
    exists r st' delta,
      vlc_http_mgr_request E https host port req st = Ok r st' /\
      st_trace st' = st_trace st ++ delta /\
      count is_release delta = count is_stream_failure delta /\
      (count is_release delta <= 2)%nat.
Proof.
  intros W E https host port req st.
  destruct (request_effects W E https host port req st)
    as (r & st' & delta & Hrun & Htr & _ & _ & H & _).
  exists r, st', delta. tauto.
Qed.

(** X9. No transport is lost by a request: every dial that opened a
    transport is followed by one call to a constructor, and the transport is
    closed by the manager once for each constructor that answered nothing,
    never after a constructor took it. *)
Theorem transports_are_adopted_or_closed :
  forall (W : Type) (E : Collab W) (https : bool) (host : string) (port : N)
         (req : vlc_http_msg) (st : state W),
    exists r st' delta,
      vlc_http_mgr_request E https host port req st = Ok r st' /\
      st_trace st' = st_trace st ++ delta /\
      count is_dial_success delta = count is_construct delta /\
      count is_tls_close delta = count is_construct_failure delta.
Proof.
  intros W E https host port req st.
  destruct (request_effects W E https host port req st)
    as (r & st' & delta & Hrun & Htr & _ & _ & _ & H & _).
  exists r, st', delta. tauto.
Qed.

(** X10. When the dial of a request fails, the request answers nothing,
    calls no constructor and leaves the slot empty. *)
Theorem dial_failure_fails_request :
  forall (W : Type) (E : Collab W) (https : bool) (host : string) (port : N)
         (req : vlc_http_msg) (st : state W),
    exists r st' delta,
      vlc_http_mgr_request E https host port req st = Ok r st' /\
      st_trace st' = st_trace st ++ delta /\
      (existsb is_dial_failure delta = true ->
       r = None /\ count is_construct delta = 0%nat /\
       conn (st_mgr st') = None).
Proof.
  intros W E https host port req st.
  destruct (request_effects W E https host port req st)
    as (r & st' & delta & Hrun & Htr & _ & _ & _ & _ & H & _).
  exists r, st', delta. auto.
Qed.

Lemma dial_failure_fails_request_witness :
  exists r st' delta,
    vlc_http_mgr_request Script.direct true "example.test" 0 5
      (Script.fresh [true; false]) = Ok r st' /\
    st_trace st' = delta /\
    existsb is_dial_failure delta = true /\
    r = None /\ count is_construct delta = 0%nat /\
    conn (st_mgr st') = None.
Proof.
  destruct (dial_failure_fails_request _ Script.direct true "example.test"
              0%N 5 (Script.fresh [true; false]))
    as (r & st' & delta & Hrun & Htr & Himp).
  exists r, st', delta.
  split; [exact Hrun|]. split; [exact Htr|].
  assert (Hf : existsb is_dial_failure delta = true)
    by (concrete_run Hrun Htr; reflexivity).
  split; [exact Hf | exact (Himp Hf)].
Defined.

(** X11. The order of a request.  Before the dialer starts (its proxy
    lookup, or its dial when the lookup is skipped) the request only asks for
    credentials and tries the cached connection, in this order: credentials,
    stream open, initial message, clearing of the slot, release; it builds
    and installs nothing.  From the dialer on, the steps come in the order
    proxy lookup, dial, construction, then the closing of the transport or
    the store into the slot, stream open, initial message, clearing of the
    slot, release; no step is taken twice. *)
Theorem request_order :
  forall (W : Type) (E : Collab W) (https : bool) (host : string) (port : N)
         (req : vlc_http_msg) (st : state W),
    exists r st' delta,
      vlc_http_mgr_request E https host port req st = Ok r st' /\
      st_trace st' = st_trace st ++ delta /\
      delta = upto is_dialing delta ++ from is_dialing delta /\
      ascending (map phase (upto is_dialing delta)) = true /\
      ascending (map phase (from is_dialing delta)) = true /\
      count is_construct (upto is_dialing delta) = 0%nat /\
      existsb is_install (upto is_dialing delta) = false.
Proof.
  intros W E https host port req st.
  destruct (dispatch_order_facts W E https host port req st)
    as (r & st' & delta & Hrun & Htr & H & _).
  exists r, st', delta.
  repeat (split; [tauto|]).
  split; [|tauto].
  clear. induction delta as [|e d IH]; simpl; [reflexivity|].
  destruct (is_dialing e); simpl; [reflexivity | now rewrite <- IH].
Qed.

(** X12. A connection built during a request is stored into the empty slot
    right after its construction, and the next call is the opening of a
    stream with the request on that very connection. *)
Theorem fresh_connection_installed_then_tried :
  forall (W : Type) (E : Collab W) (https : bool) (host : string) (port : N)
         (req : vlc_http_msg) (st : state W),
    exists r st' delta,
      vlc_http_mgr_request E https host port req st = Ok r st' /\
      st_trace st' = st_trace st ++ delta /\
      forall c,
        hd_error (map constructed (from is_construct delta)) =
          Some (Some c) ->
        exists x rest,
          tl (from is_construct delta) =
          EvSetConn None (Some c) :: EvStreamOpen c req x :: rest.
Proof.
  intros W E https host port req st.
  destruct (dispatch_order_facts W E https host port req st)
    as (r & st' & delta & Hrun & Htr & _ & H & _).
  exists r, st', delta. auto.
Qed.

Lemma fresh_connection_installed_then_tried_witness :
  exists r st' delta,
    vlc_http_mgr_request Script.direct false "example.test" 0 5
      (Script.fresh [true; true; false]) = Ok r st' /\
    st_trace st' = delta /\
    hd_error (map constructed (from is_construct delta)) = Some (Some 33) /\
    exists x rest,
      tl (from is_construct delta) =
      EvSetConn None (Some 33) :: EvStreamOpen 33 5 x :: rest.
Proof.
  destruct (fresh_connection_installed_then_tried _ Script.direct false
              "example.test" 0%N 5 (Script.fresh [true; true; false]))
    as (r & st' & delta & Hrun & Htr & Himp).
  exists r, st', delta.
  split; [exact Hrun|]. split; [exact Htr|].
  assert (Hc : hd_error (map constructed (from is_construct delta)) =
               Some (Some 33))
    by (concrete_run Hrun Htr; reflexivity).
  split; [exact Hc | exact (Himp _ Hc)].
Defined.

(** X13. The cached connection comes first: with a connection in the slot,
    a request that does anything starts by opening a stream on it with the
    request, and it reaches the dialer only after a stream on that connection
    failed and the connection was released.  With an empty slot no stream is
    opened before the dialer. *)
Theorem cached_connection_tried_first :
  forall (W : Type) (E : Collab W) (https : bool) (host : string) (port : N)
         (req : vlc_http_msg) (st : state W),
    exists r st' delta,
      vlc_http_mgr_request E https host port req st = Ok r st' /\
      st_trace st' = st_trace st ++ delta /\
      (forall c,
         conn (st_mgr st) = Some c ->
         (delta = [] \/
          exists x, hd_error delta = Some (EvStreamOpen c req x)) /\
         (existsb is_dialing delta = true ->
          existsb is_stream_failure (upto is_dialing delta) = true /\
          In (EvConnRelease c) (upto is_dialing delta))) /\
      (conn (st_mgr st) = None ->
       count is_stream_open (upto is_dialing delta) = 0%nat).
Proof.
  intros W E https host port req st.
  destruct (dispatch_order_facts W E https host port req st)
    as (r & st' & delta & Hrun & Htr & _ & _ & H1 & H2 & _).
  exists r, st', delta. auto.
Qed.

Lemma cached_connection_tried_first_witness :
  exists r st' delta,
    vlc_http_mgr_request Script.direct false "example.test" 0 5
      (Script.holding None [false; true; true; true; true]) = Ok r st' /\
    st_trace st' = delta /\
    existsb is_dialing delta = true /\
    (delta = [] \/ exists x, hd_error delta = Some (EvStreamOpen 7 5 x)) /\
    existsb is_stream_failure (upto is_dialing delta) = true /\
    In (EvConnRelease 7) (upto is_dialing delta).
Proof.
  destruct (cached_connection_tried_first _ Script.direct false
              "example.test" 0%N 5
              (Script.holding None [false; true; true; true; true]))
    as (r & st' & delta & Hrun & Htr & Himp & _).
  exists r, st', delta.
  split; [exact Hrun|]. split; [exact Htr|].
  assert (Hd : existsb is_dialing delta = true)
    by (concrete_run Hrun Htr; reflexivity).
  split; [exact Hd|].
  destruct (Himp 7 eq_refl) as [Hfirst Hdial].
  split; [exact Hfirst | exact (Hdial Hd)].
Defined.

(** X14. What is built over a dialed transport.  An HTTPS request only
    makes TLS dials and a plain HTTP request never does.  Over the transport
    its dial opened, a request calls exactly one constructor: for HTTPS the
    HTTP/2 one when the dial (direct or through the proxy tunnel) reports
    HTTP/2, else the HTTP/1.1 one with [proxied] false; for plain HTTP the
    HTTP/2 one when the manager was created with [use_h2c], else the
    HTTP/1.1 one with [proxied] telling whether the lookup found a proxy. *)
Theorem version_built_after_dial :
  forall (W : Type) (E : Collab W) (https : bool) (host : string) (port : N)
         (req : vlc_http_msg) (st : state W),
    exists r st' delta,
      vlc_http_mgr_request E https host port req st = Ok r st' /\
      st_trace st' = st_trace st ++ delta /\
      count is_tls_dial delta =
        (if https then dial_attempts delta else 0%nat) /\
      forall e tls,
        find is_dial delta = Some e -> dialed e = Some tls ->
        exists c,
          filter is_construct delta =
          [if https
           then if negotiated_h2 e
                then EvH2Create (obj (st_mgr st)) tls c
                else EvH1Create (obj (st_mgr st)) tls false c
           else if use_h2c (st_mgr st)
                then EvH2Create (obj (st_mgr st)) tls c
                else EvH1Create (obj (st_mgr st)) tls
                       (existsb is_proxy_found delta) c].
Proof.
  intros W E https host port req st.
  destruct (dispatch_order_facts W E https host port req st)
    as (r & st' & delta & Hrun & Htr & _ & _ & _ & _ & H1 & H2).
  exists r, st', delta. auto.
Qed.

Lemma version_built_after_dial_witness :
  exists r st' delta,
    vlc_http_mgr_request (Script.collab (Some "http://proxy.test:3128") None)
      false "example.test" 0 5 (Script.fresh [true; true; true; true]) =
      Ok r st' /\
    st_trace st' = delta /\
    find is_dial delta = Some (EvSocketOpenTCP 1 "proxy.test" 80 (Some 22)) /\
    exists c, filter is_construct delta = [EvH1Create 1 22 true c].
Proof.
  destruct (version_built_after_dial _
              (Script.collab (Some "http://proxy.test:3128") None)
              false "example.test" 0%N 5
              (Script.fresh [true; true; true; true]))
    as (r & st' & delta & Hrun & Htr & _ & Himp).
  exists r, st', delta.
  split; [exact Hrun|]. split; [exact Htr|].
  assert (Hf : find is_dial delta =
               Some (EvSocketOpenTCP 1 "proxy.test" 80 (Some 22)) /\
               existsb is_proxy_found delta = true)
    by (concrete_run Hrun Htr; split; reflexivity).
  destruct Hf as [Hf Hp].
  split; [exact Hf|].
  destruct (Himp _ 22 Hf eq_refl) as [c Hc].
  exists c. rewrite Hc, Hp. reflexivity.
Defined.

(** ** More on the life cycle *)

(** X15. Destroy returns from any state of the manager.  It clears the slot
    and releases the cached connection if there is one, then deletes the
    credentials if there are some, in this order, and calls nothing else:
    on a manager that holds nothing it calls nothing at all. *)
Theorem destroy_spec :
  forall (W : Type) (E : Collab W) (st : state W),
    exists st',
      vlc_http_mgr_destroy E st = Ok tt st' /\
      st_trace st' =
      st_trace st ++
      match conn (st_mgr st) with
      | Some c => [EvSetConn (Some c) None; EvConnRelease c]
      | None => []
      end ++
      match creds (st_mgr st) with
      | Some cr => [EvTlsDelete cr]
      | None => []
      end /\
      conn (st_mgr st') = None /\
      creds (st_mgr st') = creds (st_mgr st).
Proof.
  intros W E st.
  use_request st; eexists; (split; [reflexivity|]);
    (split; [trace_eq|]); split; reflexivity.
Qed.

Lemma run_ops_frame :
  forall (W : Type) (E : Collab W) (ops : list op) (st st' : state W),
    run_ops E ops st = Ok tt st' ->
    obj (st_mgr st') = obj (st_mgr st) /\
    jar (st_mgr st') = jar (st_mgr st) /\
    use_h2c (st_mgr st') = use_h2c (st_mgr st).
Proof.
  intros W E ops. induction ops as [|o ops IH]; intros st st' Hrun.
  - inversion Hrun; subst. repeat split.
  - simpl in Hrun. unfold bind at 1 in Hrun.
    destruct o as [https host port m|]; simpl in Hrun.
    + destruct (request_effects W E https host port m st)
        as (r & st1 & delta & Hreq & _ & (Ho & Hj & Hh) & _).
      unfold bind at 1 in Hrun. rewrite Hreq in Hrun. unfold ret in Hrun.
      destruct (IH _ _ Hrun) as (Ho' & Hj' & Hh').
      repeat split; congruence.
    + unfold vlc_http_mgr_get_jar, bind, get_mgr, ret in Hrun.
      exact (IH _ _ Hrun).
Qed.

(** X16. The manager keeps what it was created with: after any sequence of
    operations on a created manager, [vlc_http_mgr_get_jar] answers the jar
    given to [vlc_http_mgr_create] and changes nothing, and the object and
    the [use_h2c] choice are those given at creation. *)
Theorem jar_is_kept :
  forall (W : Type) (E : Collab W) (o : vlc_object_t)
         (j : option vlc_http_cookie_jar_t) (h2c : bool) (w : W)
         (st0 st1 : state W) (ops : list op),
    vlc_http_mgr_create E o j h2c w = Some st0 ->
    run_ops E ops st0 = Ok tt st1 ->
    vlc_http_mgr_get_jar st1 = Ok j st1 /\
    obj (st_mgr st1) = o /\
    use_h2c (st_mgr st1) = h2c.
Proof.
  intros W E o j h2c w st0 st1 ops Hcreate Hrun.
  destruct (run_ops_frame W E ops st0 st1 Hrun) as (Ho & Hj & Hh).
  unfold vlc_http_mgr_create in Hcreate.
  destruct (malloc_ok E w) as [[|] w']; [|discriminate].
  inversion Hcreate; subst; simpl in *.
  unfold vlc_http_mgr_get_jar, bind, get_mgr, ret.
  rewrite Hj. repeat split; assumption.
Qed.

Lemma jar_is_kept_witness :
  exists st1,
    run_ops Script.direct
      [OpRequest false "example.test" 0 5; OpRequest true "example.test" 0 6]
      (mk_state (mk_mgr 1 None (Some 9) None true) [true; true; false] []) =
      Ok tt st1 /\
    vlc_http_mgr_get_jar st1 = Ok (Some 9) st1 /\
    obj (st_mgr st1) = 1 /\
    use_h2c (st_mgr st1) = true.
Proof.
  eexists. split; [vm_compute; reflexivity|].
  exact (jar_is_kept _ Script.direct 1 (Some 9) true [true; true; false]
           _ _
           [OpRequest false "example.test" 0 5;
            OpRequest true "example.test" 0 6]
           eq_refl eq_refl).
Defined.

(** X17. The scheme guard looks at the credentials and the slot only.  On a
    manager that has credentials and an empty slot a plain HTTP request is
    accepted: it dials in plaintext and installs the connection it builds.
    An HTTPS request that follows finds credentials and passes the guard: it
    is served by a stream on that same connection, without any dial. *)
Theorem https_reuses_plaintext_connection :
  forall (W : Type) (E : Collab W) (host host' : string) (port port' : N)
         (req req' : vlc_http_msg) (st : state W) cr
         w1 w2 w3 w4 w5 w6 w7 w8 tls c s m s' m',
    creds (st_mgr st) = Some cr ->
    conn (st_mgr st) = None ->
    asprintf_ok E (st_world st) = (true, w1) ->
    vlc_getProxyUrl E (proxy_query_url host port false) w1 = (None, w2) ->
    vlc_tls_SocketOpenTCP E (obj (st_mgr st)) host
      (match port with 0%N => 80%N | _ => port end) w2 = (Some tls, w3) ->
    (if use_h2c (st_mgr st)
     then vlc_h2_conn_create E (obj (st_mgr st)) tls w3
     else vlc_h1_conn_create E (obj (st_mgr st)) tls false w3) =
      (Some c, w4) ->
    vlc_http_stream_open E c req w4 = (Some s, w5) ->
    vlc_http_msg_get_initial E s w5 = (Some m, w6) ->
    vlc_http_stream_open E c req' w6 = (Some s', w7) ->
    vlc_http_msg_get_initial E s' w7 = (Some m', w8) ->
    exists st1 st2,
      vlc_http_mgr_request E false host port req st = Ok (Some m) st1 /\
      conn (st_mgr st1) = Some c /\
      creds (st_mgr st1) = Some cr /\
      In (EvSocketOpenTCP (obj (st_mgr st)) host
            (match port with 0%N => 80%N | _ => port end) (Some tls))
         (st_trace st1) /\
      vlc_http_mgr_request E true host' port' req' st1 = Ok (Some m') st2 /\
      st_trace st2 =
      st_trace st1 ++
      [EvStreamOpen c req' (Some s'); EvGetInitial s' (Some m')] /\
      conn (st_mgr st2) = Some c.
Proof.
  intros W E host host' port port' req req' [[o cr0 j slot h2c] w tr] cr
         w1 w2 w3 w4 w5 w6 w7 w8 tls c s m s' m'; simpl.
  intros -> -> Has Hpx Htcp Hcon Hso Hgi Hso' Hgi'.
  assert (Hport : (if N.eqb port 0 then 80%N else port) =
                  match port with 0%N => 80%N | _ => port end)
    by (destruct port; reflexivity).
  destruct h2c; simpl in Hcon;
    (do 2 eexists;
     split;
     [unfold_mgr; simpl; rewrite Has; simpl; rewrite Hpx; simpl;
      rewrite Hport, Htcp; simpl; rewrite Hcon; simpl;
      rewrite Hso; simpl; rewrite Hgi; simpl; reflexivity|];
     split; [reflexivity|]; split; [reflexivity|];
     split; [simpl; rewrite !in_app_iff; simpl; tauto|];
     split;
     [unfold_mgr; simpl; rewrite Hso'; simpl; rewrite Hgi'; simpl;
      reflexivity|];
     split; [simpl; rewrite <- !app_assoc; reflexivity | reflexivity]).
Qed.

Lemma https_reuses_plaintext_connection_witness :
  let st :=
    mk_state (mk_mgr 1 (Some Script.the_creds) None None false)
      [true; true; true; true; true; true] [] in
  exists st1 st2,
    vlc_http_mgr_request Script.direct false "example.test" 0 5 st =
      Ok (Some 233) st1 /\
    conn (st_mgr st1) = Some 33 /\
    creds (st_mgr st1) = Some Script.the_creds /\
    In (EvSocketOpenTCP 1 "example.test" 80 (Some 22)) (st_trace st1) /\
    vlc_http_mgr_request Script.direct true "example.test" 0 6 st1 =
      Ok (Some 233) st2 /\
    st_trace st2 =
    st_trace st1 ++ [EvStreamOpen 33 6 (Some 133); EvGetInitial 133 (Some 233)] /\
    conn (st_mgr st2) = Some 33.
Proof.
  intro st.
  exact (https_reuses_plaintext_connection _ Script.direct
           "example.test" "example.test" 0%N 0%N 5 6 st Script.the_creds
           [true; true; true; true; true; true]
           [true; true; true; true; true; true]
           [true; true; true; true; true]
           [true; true; true; true]
           [true; true; true]
           [true; true]
           [true]
           []
           22 33 133 233 133 233
           eq_refl eq_refl eq_refl eq_refl eq_refl eq_refl eq_refl eq_refl
           eq_refl eq_refl).
Defined.

Lemma run_requests_failures :
  forall (W : Type) (E : Collab W) (ops : list op) (st : state W),
    exists rs st',
      run_requests E ops st = Ok rs st' /\
      (conn (st_mgr st) = None -> Forall (fun r => r = None) rs ->
       conn (st_mgr st') = None).
Proof.
  intros W E ops. induction ops as [|o ops IH]; intro st.
  - exists [], st. split; [reflexivity | auto].
  - destruct o as [https host port m|]; simpl.
    + destruct (request_effects W E https host port m st)
        as (r & st1 & delta & Hreq & _ & _ & _ & _ & _ & _ & Hkeep).
      destruct (IH st1) as (rs & st' & Hrun & Himp).
      exists (r :: rs), st'. unfold bind at 1. rewrite Hreq.
      unfold bind at 1. rewrite Hrun. split; [reflexivity|].
      intros Hc Hall. inversion Hall; subst. auto.
    + destruct (IH st) as (rs & st' & Hrun & Himp).
      exists rs, st'.
      unfold vlc_http_mgr_get_jar, bind, get_mgr, ret. auto.
Qed.

(** X18. When every request on a created manager answered nothing, the
    slot is empty, and destroy completes without releasing any connection:
    all it may do is delete the credentials, if some were obtained. *)
Theorem destroy_after_failures_releases_nothing :
  forall (W : Type) (E : Collab W) (o : vlc_object_t)
         (j : option vlc_http_cookie_jar_t) (h2c : bool) (w : W)
         (st0 : state W) (ops : list op),
    vlc_http_mgr_create E o j h2c w = Some st0 ->
    exists rs st1,
      run_requests E ops st0 = Ok rs st1 /\
      (Forall (fun r => r = None) rs ->
       conn (st_mgr st1) = None /\
       exists st2,
         vlc_http_mgr_destroy E st1 = Ok tt st2 /\
         st_trace st2 =
         st_trace st1 ++
         match creds (st_mgr st1) with
         | Some cr => [EvTlsDelete cr]
         | None => []
         end).
Proof.
  intros W E o j h2c w st0 ops Hcreate.
  destruct (run_requests_failures W E ops st0) as (rs & st1 & Hrun & Himp).
  exists rs, st1. split; [exact Hrun|]. intro Hall.
  assert (Hc : conn (st_mgr st1) = None).
  { apply Himp; [|exact Hall].
    unfold vlc_http_mgr_create in Hcreate.
    destruct (malloc_ok E w) as [[|] w']; [|discriminate].
    inversion Hcreate; reflexivity. }
  split; [exact Hc|].
  clear - Hc. destruct st1 as [[o1 cr1 j1 slot1 h1] w1 tr1]; simpl in Hc.
  subst slot1. destruct cr1; exec; eexists; split; try reflexivity; trace_eq.
Qed.

Lemma destroy_after_failures_releases_nothing_witness :
  let ops := [OpRequest true "example.test" 0 5; OpGetJar;
              OpRequest false "example.test" 0 6] in
  let st0 := Script.fresh [true; false; true; true; false] in
  exists rs st1,
    run_requests Script.direct ops st0 = Ok rs st1 /\
    Forall (fun r => r = None) rs /\
    conn (st_mgr st1) = None /\
    exists st2,
      vlc_http_mgr_destroy Script.direct st1 = Ok tt st2 /\
      st_trace st2 =
      st_trace st1 ++
      match creds (st_mgr st1) with
      | Some cr => [EvTlsDelete cr]
      | None => []
      end.
Proof.
  intros ops st0.
  destruct (destroy_after_failures_releases_nothing _ Script.direct 1 None
              false [true; false; true; true; false] st0 ops eq_refl)
    as (rs & st1 & Hrun & Himp).
  exists rs, st1. split; [exact Hrun|].
  assert (Hall : Forall (fun r => r = None) rs).
  { vm_compute in Hrun. inversion Hrun; subst.
    repeat constructor. }
  split; [exact Hall | exact (Himp Hall)].
Defined.
